(** * Depth-aware AR rendering pipeline (WebXR + WebGL2)

    A shallow embedding of
    - the depth visualisation fragment shader (custom.frag.glsl),
    - the depth-sensing driver that feeds it,
    - the hit-test / placement driver and its depth-occlusion variant,
    followed by the properties of the specification that concern them.

    Numbers: GLSL [float] and the JavaScript numbers carried by poses are
    modelled as exact rationals [Q]; rounding of the machine formats is
    outside the model.  Equality of numbers is [Qeq] (written [==]). *)

From Stdlib Require Import QArith Qminmax Lqa ZArith Lia.
From stdpp Require Import base list option.

Open Scope Q_scope.

(* ===================================================================== *)
(** ** GLSL vectors and matrices *)
(* ===================================================================== *)

Module GLSL.

Definition vec2 : Type := (Q * Q)%type.

Record vec3 : Type := Vec3 { x3 : Q; y3 : Q; z3 : Q }.

(** Components are named as GLSL's colour swizzles. *)
Record vec4 : Type := Vec4 { r : Q; g : Q; b : Q; a : Q }.

(** Column-major, as in GLSL: [col0] .. [col3] are the four columns. *)
Record mat4 : Type := Mat4 { col0 : vec4; col1 : vec4; col2 : vec4; col3 : vec4 }.

Definition vec2_eq (u v : vec2) : Prop := fst u == fst v /\ snd u == snd v.

Definition vec4_eq (u v : vec4) : Prop :=
  r u == r v /\ g u == g v /\ b u == b v /\ a u == a v.

Definition dot (u v : vec2) : Q := fst u * fst v + snd u * snd v.

(** [m * v] for a [mat4] and a [vec4]. *)
Definition mulMV (m : mat4) (v : vec4) : vec4 :=
  let c0 := col0 m in let c1 := col1 m in
  let c2 := col2 m in let c3 := col3 m in
  Vec4 (r c0 * r v + r c1 * g v + r c2 * b v + r c3 * a v)
       (g c0 * r v + g c1 * g v + g c2 * b v + g c3 * a v)
       (b c0 * r v + b c1 * g v + b c2 * b v + b c3 * a v)
       (a c0 * r v + a c1 * g v + a c2 * b v + a c3 * a v).

(** Swizzles used by the shader. *)
Definition ra (v : vec4) : vec2 := (r v, a v).
Definition xy (v : vec4) : vec2 := (r v, g v).

(** GLSL [clamp(x, minVal, maxVal) = min(max(x, minVal), maxVal)]. *)
Definition clamp (x minVal maxVal : Q) : Q := Qmin (Qmax x minVal) maxVal.

Definition identity4 : mat4 :=
  Mat4 (Vec4 1 0 0 0) (Vec4 0 1 0 0) (Vec4 0 0 1 0) (Vec4 0 0 0 1).

(** A sampler is what [texture(sampler, uv)] returns at each [uv]. *)
Definition sampler2D : Type := vec2 -> vec4.

Definition texture (s : sampler2D) (uv : vec2) : vec4 := s uv.

(** An 8-bit channel as the sampler delivers it: normalised to [0,1]. *)
Definition unorm8 (byte : Z) : Q := inject_Z byte / 255.

(** A LUMINANCE_ALPHA / UNSIGNED_BYTE texel [(lum, alpha)] reads as
    [(L, L, L, A)], each channel normalised. *)
Definition luminanceAlphaTexel (lum alpha : Z) : vec4 :=
  Vec4 (unorm8 lum) (unorm8 lum) (unorm8 lum) (unorm8 alpha).

End GLSL.

(* ===================================================================== *)
(** ** The depth visualisation fragment shader *)
(* ===================================================================== *)

Module DepthShader.
Import GLSL.

(** [const highp float kMaxDepth = 8.0;] *)
Definition kMaxDepth : Q := 8.

(** The functions below read two of the program's uniforms:
    [uniform float depthScale] and [uniform vec2 resolution]. *)
Section UniformsRead.
Variable depthScale : Q.
Variable resolution : vec2.

(** Convert depth texture value to meters. *)
Definition depthGetMeters (depth_texture : sampler2D) (depth_uv : vec2) : Q :=
  let packedDepthAndVisibility := ra (texture depth_texture depth_uv) in
  dot packedDepthAndVisibility (255, 256 * 255) * depthScale.

(** Convert fragment coordinates to normalized [0,1] UV space. *)
Definition normalizeFragCoords (fragCoords : vec2) : vec2 :=
  (fst fragCoords / fst resolution, 1 - snd fragCoords / snd resolution).

End UniformsRead.

(** Maps a value from one range to another. *)
Definition mapRange (inputValue inputMin inputMax outputMin outputMax : Q) : Q :=
  outputMin + (inputValue - inputMin) * (outputMax - outputMin) / (inputMax - inputMin).

(** [main], line "Map depth to grayscale range [0,1]": the value bound to
    [mappedValue] from the decoded [depth]. *)
Definition mappedValue (depth : Q) : Q :=
  mapRange (clamp depth 0 kMaxDepth) 0 kMaxDepth 0 1.

(** The uniforms of the program, as one value. *)
Record Uniforms : Type := MkUniforms {
  depthTexture : sampler2D;
  depthUVTransform : mat4;
  depthScale : Q;
  resolution : vec2
}.

(** [main]: the value written to [color] for the fragment whose
    [gl_FragCoord.xy] is [fragCoord]. *)
Definition main (u : Uniforms) (fragCoord : vec2) : vec4 :=
  let n := normalizeFragCoords (resolution u) fragCoord in
  let depthTexCoord := xy (mulMV (depthUVTransform u) (Vec4 (fst n) (snd n) 0 1)) in
  let depth := depthGetMeters (depthScale u) (depthTexture u) depthTexCoord in
  let mapped := mappedValue depth in
  Vec4 mapped mapped mapped 1.

End DepthShader.

(* ===================================================================== *)
(** ** What the host platform hands to a frame callback *)
(* ===================================================================== *)

Module WebXR.
Import GLSL.

Record quat : Type := Quat { qx : Q; qy : Q; qz : Q; qw : Q }.

(** [XRPose.transform], read through [.position] and [.orientation]. *)
Record XRRigidTransform : Type := MkTransform {
  position : vec3;
  orientation : quat
}.

Record XRViewport : Type := MkViewport {
  vp_x : Q; vp_y : Q; vp_width : Q; vp_height : Q
}.

(** [XRCPUDepthInformation]: [data] lists the bytes of the buffer. *)
Record XRDepthInformation : Type := MkDepthInfo {
  width : Z;
  height : Z;
  data : list Z;
  rawValueToMeters : Q;
  normDepthBufferFromNormView : mat4
}.

(** One view, together with the answers the host gives about it during
    the callback: [glLayer.getViewport(view)] and
    [frame.getDepthInformation(view)]. *)
Record XRView : Type := MkView {
  projectionMatrix : mat4;
  inverseMatrix : mat4;                       (* view.transform.inverse.matrix *)
  viewport : XRViewport;
  depthInformation : option XRDepthInformation
}.

(** A frame: [getViewerPose(unboundedRefSpace)] is [None] for JavaScript's
    [null], else the views of the pose; [getHitTestResults] lists, for
    each result, what its [getPose(unboundedRefSpace)] returns. *)
Record XRFrame : Type := MkFrame {
  getViewerPose : option (list XRView);
  getHitTestResults : list (option XRRigidTransform)
}.

Inductive XRHitTestSource : Type := HitTestSource.

End WebXR.

(* ===================================================================== *)
(** ** Scene objects of the rendering framework *)
(* ===================================================================== *)

Module Framework.
Import GLSL WebXR.

Inductive GLModel : Type := YoshikageKira | ReticleModel.

(** An orientation as the framework received it.  How Euler angles become
    a quaternion and how [rotate] composes are the framework's business;
    the drivers only hand orientations over, so they are kept as the
    history of what was handed over. *)
Inductive Rotation : Type :=
| FromEuler (degrees : vec3)
| FromQuat (q : quat)
| Rotated (degrees : vec3) (before : Rotation).

(** Modelled from the spec: the class [GLSceneObject] of
    [./webgl-framework], which is not among the sources.  "SceneObject:
    { modelReference, localTransform: position+rotation+scale, derived
    modelMatrix }"; the model matrix is derived, so only the stored
    components are kept. *)
Record GLSceneObject : Type := MkSceneObject {
  modelReference : GLModel;
  objPosition : vec3;
  objRotation : Rotation;
  objScale : vec3
}.

(** Modelled from the spec: [GLSceneObject.setPosition], absent from the
    sources; "pose is overwritten": the stored position is replaced. *)
Definition setPosition (p : vec3) (o : GLSceneObject) : GLSceneObject :=
  MkSceneObject (modelReference o) p (objRotation o) (objScale o).

(** Modelled from the spec: [GLSceneObject.setRotation], absent from the
    sources; the stored orientation is replaced by the quaternion. *)
Definition setRotation (q : quat) (o : GLSceneObject) : GLSceneObject :=
  MkSceneObject (modelReference o) (objPosition o) (FromQuat q) (objScale o).

(** Modelled from the spec: [GLSceneObject.rotate], absent from the sources
    and not described by the spec beyond "localTransform:
    position+rotation+scale"; it is taken to change the stored orientation
    of the object it is called on, and nothing else. *)
Definition rotate (degrees : vec3) (o : GLSceneObject) : GLSceneObject :=
  MkSceneObject (modelReference o) (objPosition o)
                (Rotated degrees (objRotation o)) (objScale o).

(** Modelled from the spec: [GLRenderer.createModelSceneObject], absent from
    the sources; the orientation is given as Euler angles. *)
Definition createModelSceneObject (m : GLModel) (p degrees s : vec3) : GLSceneObject :=
  MkSceneObject m p (FromEuler degrees) s.

(** Modelled from the spec: [GLRenderer.createModelSceneObjectFromQuats],
    absent from the sources; "created ... by copying the
    PlacementIndicator's current pose": the new object holds its own copy
    of the position and orientation it is given. *)
Definition createModelSceneObjectFromQuats
    (m : GLModel) (p : vec3) (rot : Rotation) (s : vec3) : GLSceneObject :=
  MkSceneObject m p rot s.

End Framework.

(* ===================================================================== *)
(** ** State of a running page and the calls a callback makes *)
(* ===================================================================== *)

Module Runtime.
Import GLSL WebXR Framework.

Inductive Framebuffer : Type :=
| LayerFramebuffer                     (* glLayer.framebuffer *)
| NullFramebuffer.                     (* null *)

Inductive UniformLocation : Type :=
| UDepthTexture | UDepthUVTransform | UDepthScale | UResolution
| UProjection | UView.

(** What the GL context keeps for the program of [customShader] and for
    the texture object [depthTexture]: the values of the uniforms and the
    image last uploaded.  [depthTexture] is the only texture the drivers
    bind, so the image is kept with the program state. *)
Record GLProgramState : Type := MkGLProgram {
  uDepthTexture : Z;
  uDepthUVTransform : mat4;
  uDepthScale : Q;
  uResolution : vec2;
  depthTextureImage : option (Z * Z * list Z)
}.

(** The calls that leave the driver, on the session, the frame, the layer,
    the GL context, the shader, the renderer and the scene objects.
    Property reads and the getters of renderer and shader ([getScene],
    [getUniforms], [getUniformDepthScale], ...) are not listed.
    [DrawArrays] also records the program state the draw consumes. *)
Inductive Call : Type :=
| RequestAnimationFrame
| FrameGetViewerPose
| FrameGetHitTestResults
| HitResultGetPose
| FrameGetDepthInformation
| LayerGetViewport
| SetPosition (ref : nat) (p : vec3)
| SetRotation (ref : nat) (q : quat)
| CreateModelSceneObjectFromQuats (ref : nat)
| Rotate (ref : nat) (degrees : vec3)
| AddSceneObjectToScene (ref : nat)
| BindFramebuffer (fb : Framebuffer)
| ClearColor (red green blue alpha : Q)
| Clear                                (* COLOR_BUFFER_BIT | DEPTH_BUFFER_BIT *)
| UseShader
| SetViewPort (vp : XRViewport)
| ActiveTexture (unit : Z)
| BindTexture
| TexImage2D (w h : Z) (bytes : list Z)
| Uniform1i (loc : UniformLocation) (v : Z)
| Uniform1f (loc : UniformLocation) (v : Q)
| Uniform2f (loc : UniformLocation) (v0 v1 : Q)
| UniformMatrix4fv (loc : UniformLocation) (m : mat4)
| UseLights
| RenderSceneObject (ref : nat)
| DrawArrays (first count : Z) (consumed : GLProgramState)
| UseProgramNull.

(** Bytes in one row of a LUMINANCE_ALPHA / UNSIGNED_BYTE image. *)
Definition rowBytes (w : Z) : Z := (2 * w)%Z.

(** Distance between the starts of two rows in the buffer handed to
    [texImage2D].  The pages never call [pixelStorei], so UNPACK_ALIGNMENT
    has its initial value 4 and every row starts on a multiple of 4. *)
Definition rowStride (w : Z) : Z := (4 * ((rowBytes w + 3) / 4))%Z.

(** Bytes [texImage2D] needs for [h] rows of [w] pixels: full strides for
    all rows but the last, which needs its own bytes only. *)
Definition requiredBytes (w h : Z) : Z :=
  if ((w =? 0) || (h =? 0))%Z then 0%Z
  else (rowStride w * (h - 1) + rowBytes w)%Z.

(** Whether [texImage2D(TEXTURE_2D, 0, LUMINANCE_ALPHA, w, h, 0,
    LUMINANCE_ALPHA, UNSIGNED_BYTE, bytes)] stores an image: a negative size
    is INVALID_VALUE, a buffer shorter than required is INVALID_OPERATION,
    and in both cases the texture keeps what it had.  Sizes are taken to be
    within the implementation's MAX_TEXTURE_SIZE. *)
Definition texImageAccepted (w h : Z) (bytes : list Z) : bool :=
  ((0 <=? w) && (0 <=? h) && (requiredBytes w h <=? Z.of_nat (length bytes)))%Z.

(** The rows GL reads from the buffer: [rowLen] bytes at every [stride]. *)
Fixpoint unpackRows (rows stride rowLen : nat) (bytes : list Z) : list Z :=
  match rows with
  | O => []
  | S more => take rowLen bytes ++ unpackRows more stride rowLen (drop stride bytes)
  end.

(** The bytes of the image an accepted upload stores, row after row. *)
Definition unpackImage (w h : Z) (bytes : list Z) : list Z :=
  unpackRows (Z.to_nat h) (Z.to_nat (rowStride w)) (Z.to_nat (rowBytes w)) bytes.

(** Effect of a GL call on the program state. *)
Definition applyGL (c : Call) (p : GLProgramState) : GLProgramState :=
  match c with
  | TexImage2D w h bytes =>
      MkGLProgram (uDepthTexture p) (uDepthUVTransform p) (uDepthScale p)
                  (uResolution p)
                  (if texImageAccepted w h bytes
                   then Some (w, h, unpackImage w h bytes)
                   else depthTextureImage p)
  | Uniform1i UDepthTexture v =>
      MkGLProgram v (uDepthUVTransform p) (uDepthScale p)
                  (uResolution p) (depthTextureImage p)
  | UniformMatrix4fv UDepthUVTransform m =>
      MkGLProgram (uDepthTexture p) m (uDepthScale p)
                  (uResolution p) (depthTextureImage p)
  | Uniform1f UDepthScale v =>
      MkGLProgram (uDepthTexture p) (uDepthUVTransform p) v
                  (uResolution p) (depthTextureImage p)
  | Uniform2f UResolution v0 v1 =>
      MkGLProgram (uDepthTexture p) (uDepthUVTransform p) (uDepthScale p)
                  (v0, v1) (depthTextureImage p)
  | _ => p
  end.

(** The module-level variables of a page, with the objects they refer to:
    [heap] holds the scene objects, a reference is an index into it;
    [scene] is the renderer's scene, in insertion order. *)
Record State : Type := MkState {
  heap : list GLSceneObject;
  scene : list nat;
  reticleSceneObj : nat;
  arHitTestSource : option XRHitTestSource;
  selectListener : bool;                 (* "select" listener registered *)
  glProgram : GLProgramState
}.

(** A callback body: from the state, a result, the new state, and the
    calls made, in order. *)
Definition Prog (A : Type) : Type := State -> A * State * list Call.

#[export] Instance prog_ret : MRet Prog := fun A x s => (x, s, []).

#[export] Instance prog_bind : MBind Prog := fun A B f m s =>
  let '(x, s1, t1) := m s in
  let '(y, s2, t2) := f x s1 in
  (y, s2, t1 ++ t2).

Definition get : Prog State := fun s => (s, s, []).

Definition call (c : Call) : Prog unit := fun s => (tt, s, [c]).

Definition stateAfter {A} (m : Prog A) (s : State) : State := snd (fst (m s)).
Definition callsOf {A} (m : Prog A) (s : State) : list Call := snd (m s).

Definition setHeap (h : list GLSceneObject) (s : State) : State :=
  MkState h (scene s) (reticleSceneObj s) (arHitTestSource s)
          (selectListener s) (glProgram s).

Definition setScene (sc : list nat) (s : State) : State :=
  MkState (heap s) sc (reticleSceneObj s) (arHitTestSource s)
          (selectListener s) (glProgram s).

Definition setGLProgram (p : GLProgramState) (s : State) : State :=
  MkState (heap s) (scene s) (reticleSceneObj s) (arHitTestSource s)
          (selectListener s) p.

(** A call on [gl]: listed, and applied to the program state. *)
Definition gl (c : Call) : Prog unit := fun s =>
  (tt, setGLProgram (applyGL c (glProgram s)) s, [c]).

Definition gl_drawArrays (first count : Z) : Prog unit := fun s =>
  (tt, s, [DrawArrays first count (glProgram s)]).

(** A method of a scene object that changes it in place. *)
Definition mutate (ref : nat) (f : GLSceneObject -> GLSceneObject) (c : Call)
  : Prog unit := fun s => (tt, setHeap (alter f ref (heap s)) s, [c]).

(** A newly constructed scene object: its reference is fresh. *)
Definition allocate (o : GLSceneObject) : Prog nat := fun s =>
  let ref := length (heap s) in
  (ref, setHeap (heap s ++ [o]) s, [CreateModelSceneObjectFromQuats ref]).

(** Modelled from the spec: [GLRenderer.addSceneObjectToScene], absent from
    the sources; "each SceneObject in the scene's insertion order": the
    reference is appended to the scene. *)
Definition addSceneObjectToScene (ref : nat) : Prog unit := fun s =>
  (tt, setScene (scene s ++ [ref]) s, [AddSceneObjectToScene ref]).

(** [for (let i = 0; i < xs.length; i++) body(xs[i])]. *)
Fixpoint forEach {A} (xs : list A) (body : A -> Prog unit) : Prog unit :=
  match xs with
  | [] => mret tt
  | x :: rest => body x ;; forEach rest body
  end.

End Runtime.

(* ===================================================================== *)
(** ** The depth-sensing page: visualises the depth buffer *)
(* ===================================================================== *)

Module DepthSensing.
Import GLSL WebXR Framework Runtime.

(** Uniforms of a program that was linked and never written are zero. *)
Definition initialGLProgram : GLProgramState :=
  MkGLProgram 0%Z
    (Mat4 (Vec4 0 0 0 0) (Vec4 0 0 0 0) (Vec4 0 0 0 0) (Vec4 0 0 0 0))
    0 (0, 0) None.

(** State when [main] has run: no scene object is created by this page. *)
Definition afterMain : State :=
  MkState [] [] 0%nat None false initialGLProgram.

(** The block "Do the Rendering" of [onDrawFrame]. *)
Definition doTheRendering (views : list XRView) : Prog unit :=
  gl (BindFramebuffer LayerFramebuffer) ;;
  gl (ClearColor 0 0 0 0) ;;
  gl Clear ;;
  call UseShader ;;
  forEach views (fun view =>
    call LayerGetViewport ;;
    call (SetViewPort (viewport view)) ;;
    (* Depth sensing *)
    call FrameGetDepthInformation ;;
    match depthInformation view with
    | Some depthInfo =>
        gl (ActiveTexture 0) ;;
        gl BindTexture ;;
        gl (TexImage2D (width depthInfo) (height depthInfo) (data depthInfo)) ;;
        gl (Uniform1i UDepthTexture 0) ;;
        gl (UniformMatrix4fv UDepthUVTransform (normDepthBufferFromNormView depthInfo)) ;;
        gl (Uniform1f UDepthScale (rawValueToMeters depthInfo)) ;;
        gl (Uniform2f UResolution (vp_width (viewport view)) (vp_height (viewport view)))
    | None => mret tt
    end ;;
    (* Draw two triangles to encompass the whole screen *)
    gl_drawArrays 0 6) ;;
  gl UseProgramNull ;;
  gl (BindFramebuffer NullFramebuffer).

Definition onDrawFrame (frame : XRFrame) : Prog unit :=
  (* Get the current session and request the next frame *)
  call RequestAnimationFrame ;;
  (* Get the viewer's pose *)
  call FrameGetViewerPose ;;
  match getViewerPose frame with
  | Some views => doTheRendering views
  | None => mret tt
  end.

(** The uniforms a draw of the depth shader runs with.  [sampleImage] is
    the GPU's sampling of an uploaded LUMINANCE_ALPHA image (filtering
    and wrapping included); a texture without image samples as opaque
    black. *)
Definition uniformsOfDraw (sampleImage : Z -> Z -> list Z -> sampler2D)
    (p : GLProgramState) : DepthShader.Uniforms :=
  DepthShader.MkUniforms
    match depthTextureImage p with
    | Some (w, h, bytes) => sampleImage w h bytes
    | None => fun _ => Vec4 0 0 0 1
    end
    (uDepthUVTransform p) (uDepthScale p) (uResolution p).

(** Colour of the fragment at [fragCoord] for each draw call of a trace. *)
Definition fragmentColors (sampleImage : Z -> Z -> list Z -> sampler2D)
    (calls : list Call) (fragCoord : vec2) : list vec4 :=
  omap (fun c => match c with
                 | DrawArrays _ _ p =>
                     Some (DepthShader.main (uniformsOfDraw sampleImage p) fragCoord)
                 | _ => None
                 end) calls.

End DepthSensing.

(* ===================================================================== *)
(** ** Placement: the text the hit-test page and the depth-occlusion page
       have in common *)
(* ===================================================================== *)

Module Placement.
Import GLSL WebXR Framework Runtime.

(** State when [main] has run: the reticle was created at the origin with
    Euler angles (0,0,0) and unit scale, and added to the scene. *)
Definition afterMain : State :=
  MkState [createModelSceneObject ReticleModel (Vec3 0 0 0) (Vec3 0 0 0) (Vec3 1 1 1)]
          [0%nat] 0%nat None false DepthSensing.initialGLProgram.

(** What [startARSession] asks of the platform. *)
Record Platform : Type := MkPlatform {
  isARSupported : bool;
  requestHitTestSource : option XRHitTestSource   (* None: method absent *)
}.

(** [startARSession]: the session, its "end" listener, its base layer and
    the three reference spaces come first and carry no state here. *)
Definition startARSession (host : Platform) : Prog unit :=
  if negb (isARSupported host) then mret tt
  else
    match requestHitTestSource host with
    | Some source =>
        fun s =>
          (tt, MkState (heap s) (scene s) (reticleSceneObj s) (Some source)
                       true (glProgram s), [])
    | None => mret tt
    end ;;
    (* Request the animation frame *)
    call RequestAnimationFrame.

(** Function to spawn model on touch select event.  The reticle's pose is
    read when the handler is entered; the handler is taken as one step. *)
Definition onSelect : Prog unit :=
  s ← get ;
  match heap s !! reticleSceneObj s with
  | Some reticle =>
      sceneObject ← allocate
        (createModelSceneObjectFromQuats YoshikageKira
           (objPosition reticle) (objRotation reticle)
           (Vec3 (1 # 2) (1 # 2) (1 # 2))) ;
      mutate sceneObject (rotate (Vec3 (-90) 0 0))
             (Rotate sceneObject (Vec3 (-90) 0 0)) ;;
      addSceneObjectToScene sceneObject
  | None => mret tt          (* [reticleSceneObj] is assigned in [main] *)
  end.

(** The block "Check for hit results" of [onDrawFrame]. *)
Definition checkForHitResults (frame : XRFrame) : Prog unit :=
  s ← get ;
  match arHitTestSource s with
  | Some _ =>
      call FrameGetHitTestResults ;;
      match getHitTestResults frame with
      | first :: _ =>
          call HitResultGetPose ;;
          match first with
          | Some hitResultPose =>
              let hitLocationPosition :=
                Vec3 (x3 (position hitResultPose)) (y3 (position hitResultPose))
                     (z3 (position hitResultPose)) in
              let hitLocationOrientation :=
                Quat (qx (orientation hitResultPose)) (qy (orientation hitResultPose))
                     (qz (orientation hitResultPose)) (qw (orientation hitResultPose)) in
              mutate (reticleSceneObj s) (setPosition hitLocationPosition)
                     (SetPosition (reticleSceneObj s) hitLocationPosition) ;;
              mutate (reticleSceneObj s) (setRotation hitLocationOrientation)
                     (SetRotation (reticleSceneObj s) hitLocationOrientation)
          | None => mret tt
          end
      | [] => mret tt
      end
  | None => mret tt
  end.

(** The events a session delivers to the page. *)
Inductive Event : Type :=
| Select
| Frame (frame : XRFrame).

Section Session.
(** The page's frame callback. *)
Variable onDrawFrame : XRFrame -> Prog unit.

Definition dispatch (e : Event) : Prog unit :=
  match e with
  | Select => s ← get ; if selectListener s then onSelect else mret tt
  | Frame frame => onDrawFrame frame
  end.

Definition run (events : list Event) : Prog unit := forEach events dispatch.
End Session.

(** A frame on which the tracker sees a hit: the viewer pose is there, the
    hit-test source exists, and the first result's pose resolves. *)
Definition observesHit (s : State) (e : Event) : bool :=
  match e with
  | Frame frame =>
      match getViewerPose frame, arHitTestSource s, getHitTestResults frame with
      | Some _, Some _, Some _ :: _ => true
      | _, _, _ => false
      end
  | Select => false
  end.

End Placement.

(* ===================================================================== *)
(** ** The hit-test page *)
(* ===================================================================== *)

Module HitTest.
Import GLSL WebXR Framework Runtime Placement.

(** The block "Do the Rendering" of [onDrawFrame]. *)
Definition doTheRendering (views : list XRView) : Prog unit :=
  gl (BindFramebuffer LayerFramebuffer) ;;
  gl (ClearColor 0 0 0 0) ;;
  gl Clear ;;
  call UseShader ;;
  forEach views (fun view =>
    call LayerGetViewport ;;
    call (SetViewPort (viewport view)) ;;
    call UseLights ;;
    gl (UniformMatrix4fv UProjection (projectionMatrix view)) ;;
    gl (UniformMatrix4fv UView (inverseMatrix view)) ;;
    s ← get ;
    forEach (scene s) (fun sceneObject => call (RenderSceneObject sceneObject))) ;;
  gl UseProgramNull ;;
  gl (BindFramebuffer NullFramebuffer).

Definition onDrawFrame (frame : XRFrame) : Prog unit :=
  (* Get the current session and request the next frame *)
  call RequestAnimationFrame ;;
  (* Get the viewer's pose *)
  call FrameGetViewerPose ;;
  match getViewerPose frame with
  | Some views =>
      (* Check for hit results *)
      checkForHitResults frame ;;
      doTheRendering views
  | None => mret tt
  end.

End HitTest.

(* ===================================================================== *)
(** ** The depth-occlusion page *)
(* ===================================================================== *)

Module DepthOcclusion.
Import GLSL WebXR Framework Runtime Placement.

(** The block "Do the Rendering" of [onDrawFrame].  [views[i]] is defined
    for every [i < views.length], so the [if (!view) continue] of the
    loop never fires. *)
Definition doTheRendering (views : list XRView) : Prog unit :=
  gl (BindFramebuffer LayerFramebuffer) ;;
  gl (ClearColor 0 0 0 0) ;;
  gl Clear ;;
  call UseShader ;;
  forEach views (fun view =>
    call LayerGetViewport ;;
    call (SetViewPort (viewport view)) ;;
    call FrameGetDepthInformation ;;
    match depthInformation view with
    | Some depthInfo =>
        gl (ActiveTexture 1) ;;
        gl BindTexture ;;
        gl (TexImage2D (width depthInfo) (height depthInfo) (data depthInfo)) ;;
        gl (Uniform1i UDepthTexture 1) ;;
        gl (UniformMatrix4fv UDepthUVTransform (normDepthBufferFromNormView depthInfo)) ;;
        gl (Uniform1f UDepthScale (rawValueToMeters depthInfo)) ;;
        gl (Uniform2f UResolution (vp_width (viewport view)) (vp_height (viewport view)))
    | None => mret tt
    end ;;
    call UseLights ;;
    gl (UniformMatrix4fv UProjection (projectionMatrix view)) ;;
    gl (UniformMatrix4fv UView (inverseMatrix view)) ;;
    s ← get ;
    forEach (scene s) (fun sceneObject => call (RenderSceneObject sceneObject))) ;;
  gl UseProgramNull ;;
  gl (BindFramebuffer NullFramebuffer).

Definition onDrawFrame (frame : XRFrame) : Prog unit :=
  (* Get the current session and request the next frame *)
  call RequestAnimationFrame ;;
  (* Get the viewer's pose *)
  call FrameGetViewerPose ;;
  match getViewerPose frame with
  | Some views =>
      (* Check for hit results *)
      checkForHitResults frame ;;
      doTheRendering views
  | None => mret tt
  end.

End DepthOcclusion.

(* ===================================================================== *)
(** ** Vocabulary for the properties *)
(* ===================================================================== *)

Module Observations.
Import GLSL WebXR Framework Runtime Placement.

(** A call that writes the pose of a scene object. *)
Definition isPoseUpdate (c : Call) : bool :=
  match c with
  | SetPosition _ _ | SetRotation _ _ => true
  | _ => false
  end.

(** A call that creates, changes or registers a scene object. *)
Definition isObjectCall (c : Call) : bool :=
  match c with
  | SetPosition _ _ | SetRotation _ _ | CreateModelSceneObjectFromQuats _
  | Rotate _ _ | AddSceneObjectToScene _ => true
  | _ => false
  end.

(** A buffer clear or a draw call. *)
Definition isClearOrDraw (c : Call) : bool :=
  match c with
  | Clear | DrawArrays _ _ _ | RenderSceneObject _ => true
  | _ => false
  end.

(** Two states that differ at most in what the GL context holds. *)
Definition sameObjects (s s' : State) : Prop :=
  heap s' = heap s /\ scene s' = scene s
  /\ reticleSceneObj s' = reticleSceneObj s
  /\ arHitTestSource s' = arHitTestSource s
  /\ selectListener s' = selectListener s.

(** A body that only talks to the host and to GL. *)
Definition rendersOnly {A} (m : Prog A) : Prop :=
  forall s, sameObjects s (stateAfter m s)
            /\ Forall (fun c => isObjectCall c = false) (callsOf m s).

(** Whether some event of [events], delivered in order from [s], is a
    frame on which the tracker sees a hit. *)
Fixpoint hitObservedDuring (onDrawFrame : XRFrame -> Prog unit)
    (events : list Event) (s : State) : bool :=
  match events with
  | [] => false
  | e :: rest =>
      observesHit s e
      || hitObservedDuring onDrawFrame rest (stateAfter (dispatch onDrawFrame e) s)
  end.

(** The object a select event creates from the reticle [reticle]. *)
Definition placedFrom (reticle : GLSceneObject) : GLSceneObject :=
  MkSceneObject YoshikageKira (objPosition reticle)
                (Rotated (Vec3 (-90) 0 0) (objRotation reticle))
                (Vec3 (1 # 2) (1 # 2) (1 # 2)).

(** A 1x1 LUMINANCE_ALPHA image samples as its only texel everywhere. *)
Definition sampleFirstTexel (w h : Z) (bytes : list Z) : sampler2D :=
  fun _ => match bytes with
           | lum :: alpha :: _ => luminanceAlphaTexel lum alpha
           | _ => Vec4 0 0 0 1
           end.

End Observations.

(* ===================================================================== *)
(** ** Sample inputs *)
(* ===================================================================== *)

Module Samples.
Import GLSL WebXR Framework Runtime Placement.

(** A platform with AR and hit-testing, and the page once its session
    has started. *)
Definition phone : Platform := MkPlatform true (Some HitTestSource).

Definition started : State := stateAfter (startARSession phone) afterMain.

Definition theReticle : GLSceneObject :=
  createModelSceneObject ReticleModel (Vec3 0 0 0) (Vec3 0 0 0) (Vec3 1 1 1).

Definition floorHit : XRRigidTransform :=
  MkTransform (Vec3 1 2 3) (Quat 0 0 0 1).

(** A 1x1 depth buffer holding the raw value 500 = 244 + 1*256, at
    4 mm per unit: 2 meters. *)
Definition twoMeters : XRDepthInformation :=
  MkDepthInfo 1 1 [244%Z; 1%Z] (1 # 250) identity4.

Definition camera : XRView :=
  MkView identity4 identity4 (MkViewport 0 0 640 480) (Some twoMeters).

(** A 2x2 depth buffer, 2 meters everywhere. *)
Definition twoMetersSquare : XRDepthInformation :=
  MkDepthInfo 2 2 [244%Z; 1%Z; 244%Z; 1%Z; 244%Z; 1%Z; 244%Z; 1%Z] (1 # 250) identity4.

Definition cameraSquare : XRView :=
  MkView identity4 identity4 (MkViewport 0 0 640 480) (Some twoMetersSquare).

(** A depth buffer of odd width with two rows (3x2), 2 meters everywhere:
    12 bytes, tightly packed. *)
Definition twoMetersOdd : XRDepthInformation :=
  MkDepthInfo 3 2 [244%Z; 1%Z; 244%Z; 1%Z; 244%Z; 1%Z;
                   244%Z; 1%Z; 244%Z; 1%Z; 244%Z; 1%Z] (1 # 250) identity4.

Definition cameraOdd : XRView :=
  MkView identity4 identity4 (MkViewport 0 0 640 480) (Some twoMetersOdd).

Definition frameOddSnapshot : XRFrame := MkFrame (Some [cameraOdd]) [].

(** The page in steady tracking: the reticle sits on [floorHit]. *)
Definition trackedReticle : GLSceneObject :=
  MkSceneObject ReticleModel (Vec3 1 2 3) (FromQuat (Quat 0 0 0 1)) (Vec3 1 1 1).

Definition frameWithHit : XRFrame := MkFrame (Some [camera]) [Some floorHit].
Definition frameWithoutHit : XRFrame := MkFrame (Some [camera]) [].
Definition frameUnresolvedHit : XRFrame := MkFrame (Some [camera]) [None].
Definition frameWithoutPose : XRFrame := MkFrame None [Some floorHit].

End Samples.

(* ===================================================================== *)
(** ** The introductory page: one model in front of the viewer *)
(* ===================================================================== *)

Module Intro.
Import GLSL WebXR Framework Runtime.

(** State when [main] has run: the model was created at (0, 0, -2) with
    Euler angles (-90, 0, 0) and scale 0.5, and added to the scene.  The
    page has no reticle and no hit-test source; those fields are unused. *)
Definition afterMain : State :=
  MkState [createModelSceneObject YoshikageKira (Vec3 0 0 (-2)) (Vec3 (-90) 0 0)
             (Vec3 (1 # 2) (1 # 2) (1 # 2))]
          [0%nat] 0%nat None false DepthSensing.initialGLProgram.

(** [startARSession] of the introductory page and of the depth-sensing
    page: no hit-test source is requested and no "select" handler is
    registered. *)
Definition startARSession (isARSupported : bool) : Prog unit :=
  if negb isARSupported then mret tt
  else
    (* Request the animation frame *)
    call RequestAnimationFrame.

(** The block "Do the Rendering" of [onDrawFrame]. *)
Definition doTheRendering (views : list XRView) : Prog unit :=
  gl (BindFramebuffer LayerFramebuffer) ;;
  gl (ClearColor 0 0 0 0) ;;
  gl Clear ;;
  call UseShader ;;
  forEach views (fun view =>
    call LayerGetViewport ;;
    call (SetViewPort (viewport view)) ;;
    call UseLights ;;
    gl (UniformMatrix4fv UProjection (projectionMatrix view)) ;;
    gl (UniformMatrix4fv UView (inverseMatrix view)) ;;
    s ← get ;
    forEach (scene s) (fun sceneObject => call (RenderSceneObject sceneObject))) ;;
  gl UseProgramNull ;;
  gl (BindFramebuffer NullFramebuffer).

Definition onDrawFrame (frame : XRFrame) : Prog unit :=
  (* Get the current session and request the next frame *)
  call RequestAnimationFrame ;;
  (* Get the viewer's pose *)
  call FrameGetViewerPose ;;
  match getViewerPose frame with
  | Some views => doTheRendering views
  | None => mret tt
  end.

End Intro.

(* ===================================================================== *)
(** ** The support check every page makes before starting a session *)
(* ===================================================================== *)

Module Support.

(** [navigator.xr]: [None] when the browser has no WebXR, else what
    [isSessionSupported('immersive-ar')] resolves to. *)
Record Navigator : Type := MkNavigator { xr : option bool }.

(** The two messages [isARSupported] writes with [console.error]. *)
Inductive ConsoleError : Type :=
| WebXRNotSupported                    (* "WebXR not supported" *)
| WebARNotSupported.                   (* "WebAR not supported" *)

(** [isARSupported]: the result, and the errors written to the console. *)
Definition isARSupported (navigator : Navigator) : bool * list ConsoleError :=
  match xr navigator with
  | None => (false, [WebXRNotSupported])
  | Some supported =>
      if negb supported then (false, [WebARNotSupported])
      else (true, [])
  end.

End Support.

(* ===================================================================== *)
(** ** Further vocabulary *)
(* ===================================================================== *)

Module MoreObservations.
Import GLSL WebXR Framework Runtime Placement Observations.

Definition isRender (c : Call) : bool :=
  match c with RenderSceneObject _ => true | _ => false end.

Definition isDraw (c : Call) : bool :=
  match c with DrawArrays _ _ _ => true | _ => false end.

(** The calls that open and close the rendering of a frame. *)
Definition isFrameBracket (c : Call) : bool :=
  match c with
  | BindFramebuffer _ | ClearColor _ _ _ _ | Clear | UseShader | UseProgramNull => true
  | _ => false
  end.

(** A call that names a texture unit for the depth texture names [unit]. *)
Definition usesDepthUnit (unit : Z) (c : Call) : Prop :=
  match c with
  | ActiveTexture u => u = unit
  | Uniform1i UDepthTexture v => v = unit
  | _ => True
  end.

(** Every call of a body satisfies [P], from whatever state it runs. *)
Definition callsSatisfy {A} (P : Call -> Prop) (m : Prog A) : Prop :=
  forall s, Forall P (callsOf m s).

(** The program state after the upload block of a view with the depth
    snapshot [depthInfo], for texture unit [unit], entered with the program
    state [previous]: the four uniforms are the snapshot's, and the image is
    the snapshot's when [texImage2D] accepted it, else the one held before. *)
Definition uploaded (unit : Z) (view : XRView) (depthInfo : XRDepthInformation)
    (previous : GLProgramState) : GLProgramState :=
  MkGLProgram unit (normDepthBufferFromNormView depthInfo)
              (rawValueToMeters depthInfo)
              (vp_width (viewport view), vp_height (viewport view))
              (if texImageAccepted (width depthInfo) (height depthInfo) (data depthInfo)
               then Some (width depthInfo, height depthInfo,
                          unpackImage (width depthInfo) (height depthInfo) (data depthInfo))
               else depthTextureImage previous).

(** The pixels of a LUMINANCE_ALPHA byte sequence, as the sampler sees
    them. *)
Fixpoint texelsOf (bytes : list Z) : list vec4 :=
  match bytes with
  | lum :: alpha :: rest => luminanceAlphaTexel lum alpha :: texelsOf rest
  | _ => []
  end.

Fixpoint sumQ (weights : list Q) : Q :=
  match weights with
  | [] => 0
  | w :: rest => w + sumQ rest
  end.

(** The weighted sum of texels, channel by channel. *)
Fixpoint blend (weights : list Q) (texels : list vec4) : vec4 :=
  match weights, texels with
  | w :: ws, t :: ts =>
      let rest := blend ws ts in
      Vec4 (w * r t + r rest) (w * g t + g rest) (w * b t + b rest) (w * a t + a rest)
  | _, _ => Vec4 0 0 0 0
  end.

(** A sampler that filters an image: each sample is a weighted mean of the
    image's texels, the weights summing to one.  NEAREST and LINEAR
    filtering are of this kind, with any wrap mode. *)
Definition filters (s : sampler2D) (texels : list vec4) : Prop :=
  forall uv, exists weights,
    length weights = length texels
    /\ sumQ weights == 1
    /\ vec4_eq (s uv) (blend weights texels).

(** The depth a texel decodes to, in meters, at the scale [scale]. *)
Definition texelMeters (scale : Q) (texel : vec4) : Q :=
  dot (ra texel) (255, 256 * 255) * scale.

Fixpoint countSelects (events : list Event) : nat :=
  match events with
  | [] => 0
  | Select :: rest => S (countSelects rest)
  | Frame _ :: rest => countSelects rest
  end.

(** The object a select event creates when the reticle sits on [hit]. *)
Definition placedAt (hit : XRRigidTransform) : GLSceneObject :=
  MkSceneObject YoshikageKira (position hit)
                (Rotated (Vec3 (-90) 0 0) (FromQuat (orientation hit)))
                (Vec3 (1 # 2) (1 # 2) (1 # 2)).

(** What a later state of a session keeps of an earlier one: the tracker's
    configuration, the scene as a prefix, and every object but the reticle. *)
Definition grownFrom (s s' : State) : Prop :=
  reticleSceneObj s' = reticleSceneObj s
  /\ arHitTestSource s' = arHitTestSource s
  /\ selectListener s' = selectListener s
  /\ (exists added, scene s' = scene s ++ added)
  /\ (length (heap s) <= length (heap s'))%nat
  /\ (forall ref o, ref <> reticleSceneObj s ->
        heap s !! ref = Some o -> heap s' !! ref = Some o).

(** The reticle's heap after the setters wrote the pose [hit]. *)
Definition heapWithReticleAt (hit : XRRigidTransform) (s : State) : list GLSceneObject :=
  alter (setRotation (orientation hit)) (reticleSceneObj s)
        (alter (setPosition (position hit)) (reticleSceneObj s) (heap s)).

End MoreObservations.

(* ===================================================================== *)
(** * Properties of the shader *)
(* ===================================================================== *)

Section ShaderFacts.
Import GLSL DepthShader.

(** The decoder is linear in the two sampled channels; on a texel whose
    bytes are [(low, high)] the normalisation by 255 cancels. *)
Lemma depthGetMeters_texel (scale : Q) (tex : sampler2D) (uv : vec2) (low high : Z) :
  vec4_eq (texture tex uv) (luminanceAlphaTexel low high) ->
  depthGetMeters scale tex uv == (inject_Z low + inject_Z high * 256) * scale.
Proof.
  intros (Hr & _ & _ & Ha).
  unfold depthGetMeters, dot, ra; cbn [fst snd].
  rewrite Hr, Ha. cbn [luminanceAlphaTexel r a]. unfold unorm8.
  field.
Qed.

Lemma vec4_eq_refl (v : vec4) : vec4_eq v v.
Proof. repeat split; reflexivity. Qed.

Lemma clamp_below (x lo hi : Q) : lo <= hi -> x <= lo -> clamp x lo hi == lo.
Proof.
  intros Hlh Hx. unfold clamp.
  rewrite (Q.max_r x lo) by exact Hx.
  apply Q.min_l; exact Hlh.
Qed.

Lemma clamp_above (x lo hi : Q) : lo <= hi -> hi <= x -> clamp x lo hi == hi.
Proof.
  intros Hlh Hx. unfold clamp.
  destruct (Q.max_spec_le x lo) as [[Hc E] | [Hc E]]; rewrite E;
    apply Q.min_r; lra.
Qed.

Lemma clamp_inside (x lo hi : Q) : lo <= x -> x <= hi -> clamp x lo hi == x.
Proof.
  intros Hl Hh. unfold clamp.
  rewrite (Q.max_l x lo) by exact Hl.
  apply Q.min_l; exact Hh.
Qed.

Lemma mapRange_unit (v : Q) : mapRange v 0 kMaxDepth 0 1 == v / 8.
Proof. unfold mapRange, kMaxDepth. field. Qed.

Lemma mappedValue_inside (d : Q) : 0 <= d -> d <= 8 -> mappedValue d == d / 8.
Proof.
  intros H0 H8. unfold mappedValue. rewrite mapRange_unit.
  rewrite (clamp_inside d 0 kMaxDepth) by (unfold kMaxDepth; lra).
  reflexivity.
Qed.

End ShaderFacts.


Section ShaderClaims.
Import GLSL DepthShader.

(** C1 (as amended).  On a texel whose two 8-bit channels are [(low, high)]
    the decoder returns [(low + high*256) * depthScale]: the pair (0,0)
    gives 0, (255,0) gives [255 * scale], (0,1) gives [256 * scale], and
    the high channel at full scale, (0,255), gives [256*255 * scale]. *)
Theorem depthGetMeters_little_endian
    (scale : Q) (tex : sampler2D) (uv : vec2) (low high : Z) :
  vec4_eq (texture tex uv) (luminanceAlphaTexel low high) ->
  depthGetMeters scale tex uv == (inject_Z low + inject_Z high * 256) * scale
  /\ (low = 0%Z -> high = 0%Z -> depthGetMeters scale tex uv == 0)
  /\ (low = 255%Z -> high = 0%Z -> depthGetMeters scale tex uv == 255 * scale)
  /\ (low = 0%Z -> high = 1%Z -> depthGetMeters scale tex uv == 256 * scale)
  /\ (low = 0%Z -> high = 255%Z -> depthGetMeters scale tex uv == 256 * 255 * scale).
Proof.
  intros Htexel.
  pose proof (depthGetMeters_texel scale tex uv low high Htexel) as Hdecode.
  split; [exact Hdecode |].
  repeat split; intros -> ->; rewrite Hdecode; ring.
Qed.

Lemma depthGetMeters_little_endian_witness :
  depthGetMeters (1 # 1000) (fun _ => luminanceAlphaTexel 0 1) (0, 0)
    == 256 * (1 # 1000).
Proof.
  apply (depthGetMeters_little_endian (1 # 1000)
           (fun _ => luminanceAlphaTexel 0 1) (0, 0) 0 1).
  - apply vec4_eq_refl.
  - reflexivity.
  - reflexivity.
Defined.

(** C1 as stated fails: the channel pair (low=0, high=1) does not decode
    to [256*255*scale]; at scale 1 it decodes to 256. *)
Lemma depthGetMeters_high_one_is_not_65280 :
  ~ (depthGetMeters 1 (fun _ => luminanceAlphaTexel 0 1) (0, 0) == 256 * 255 * 1).
Proof. vm_compute. discriminate. Qed.

(** C9.  The decoder is monotonic in the combined 16-bit value: with a
    non-negative scale, [low1 + high1*256 <= low2 + high2*256] implies
    that the first texel decodes to no more than the second. *)
Theorem depthGetMeters_monotonic
    (scale : Q) (tex1 tex2 : sampler2D) (uv1 uv2 : vec2)
    (low1 high1 low2 high2 : Z) :
  0 <= scale ->
  vec4_eq (texture tex1 uv1) (luminanceAlphaTexel low1 high1) ->
  vec4_eq (texture tex2 uv2) (luminanceAlphaTexel low2 high2) ->
  (low1 + high1 * 256 <= low2 + high2 * 256)%Z ->
  depthGetMeters scale tex1 uv1 <= depthGetMeters scale tex2 uv2.
Proof.
  intros Hscale H1 H2 Hle.
  rewrite (depthGetMeters_texel _ _ _ _ _ H1), (depthGetMeters_texel _ _ _ _ _ H2).
  apply Qmult_le_compat_r; [| exact Hscale].
  rewrite Zle_Qle in Hle.
  rewrite !inject_Z_plus, !inject_Z_mult in Hle.
  exact Hle.
Qed.

Lemma depthGetMeters_monotonic_witness :
  depthGetMeters (1 # 1000) (fun _ => luminanceAlphaTexel 255 0) (0, 0)
    <= depthGetMeters (1 # 1000) (fun _ => luminanceAlphaTexel 0 1) (0, 0).
Proof.
  apply (depthGetMeters_monotonic (1 # 1000) _ _ (0, 0) (0, 0) 255 0 0 1).
  - discriminate.
  - apply vec4_eq_refl.
  - apply vec4_eq_refl.
  - lia.
Defined.

(** C2.  For a resolution [(width, height)] with positive sides,
    [normalizeFragCoords] sends [(x, y)] to [(x/width, 1 - y/height)]:
    (0,0) to (0,1), (width,0) to (1,1), (0,height) to (0,0), and every
    [(x, y)] of [0,width] x [0,height] into the unit square. *)
Theorem normalizeFragCoords_unit_square (w h x y : Q) :
  0 < w -> 0 < h ->
  vec2_eq (normalizeFragCoords (w, h) (x, y)) (x / w, 1 - y / h)
  /\ vec2_eq (normalizeFragCoords (w, h) (0, 0)) (0, 1)
  /\ vec2_eq (normalizeFragCoords (w, h) (w, 0)) (1, 1)
  /\ vec2_eq (normalizeFragCoords (w, h) (0, h)) (0, 0)
  /\ (0 <= x <= w -> 0 <= y <= h ->
      0 <= fst (normalizeFragCoords (w, h) (x, y)) <= 1
      /\ 0 <= snd (normalizeFragCoords (w, h) (x, y)) <= 1).
Proof.
  intros Hw Hh.
  assert (Hw' : ~ w == 0) by lra.
  assert (Hh' : ~ h == 0) by lra.
  unfold normalizeFragCoords, vec2_eq; cbn [fst snd].
  repeat match goal with |- _ /\ _ => split end;
    try reflexivity; try (field; assumption).
  - intros [Hx0 Hx1] [Hy0 Hy1].
    assert (0 <= x / w) by (apply Qle_shift_div_l; lra).
    assert (x / w <= 1) by (apply Qle_shift_div_r; lra).
    assert (0 <= y / h) by (apply Qle_shift_div_l; lra).
    assert (y / h <= 1) by (apply Qle_shift_div_r; lra).
    repeat split; lra.
Qed.

Lemma normalizeFragCoords_unit_square_witness :
  0 <= fst (normalizeFragCoords (640, 480) (320, 120)) <= 1
  /\ 0 <= snd (normalizeFragCoords (640, 480) (320, 120)) <= 1.
Proof.
  apply (normalizeFragCoords_unit_square 640 480 320 120); try reflexivity;
    split; discriminate.
Defined.

(** C3.  [mappedValue], the depth-to-grayscale mapping of [main], lands in
    [0,1]; it is 1 from 8 meters on, 0 up to 0 meters, and [depth/8] on
    [0,8], where [8 * mappedValue] recovers the depth and equal images
    come from equal depths. *)
Theorem mappedValue_clamped_linear (d : Q) :
  0 <= mappedValue d <= 1
  /\ (8 <= d -> mappedValue d == 1)
  /\ (d <= 0 -> mappedValue d == 0)
  /\ (0 <= d <= 8 -> mappedValue d == d / 8 /\ 8 * mappedValue d == d)
  /\ (forall d' : Q, 0 <= d <= 8 -> 0 <= d' <= 8 ->
        mappedValue d == mappedValue d' -> d == d').
Proof.
  assert (Hhi : 8 <= d -> mappedValue d == 1).
  { intros H. unfold mappedValue. rewrite mapRange_unit.
    rewrite (clamp_above d 0 kMaxDepth) by (unfold kMaxDepth; lra).
    reflexivity. }
  assert (Hlo : d <= 0 -> mappedValue d == 0).
  { intros H. unfold mappedValue. rewrite mapRange_unit.
    rewrite (clamp_below d 0 kMaxDepth) by (unfold kMaxDepth; lra).
    reflexivity. }
  split; [| split; [exact Hhi | split; [exact Hlo | split]]].
  - destruct (Qlt_le_dec d 0) as [Hneg | Hpos].
    + rewrite Hlo by lra. lra.
    + destruct (Qlt_le_dec 8 d) as [Hbig | Hsmall].
      * rewrite Hhi by lra. lra.
      * rewrite (mappedValue_inside d) by lra.
        assert (Hdiv : d / 8 == d * (1 # 8)) by field.
        rewrite Hdiv. lra.
  - intros [H0 H8]. rewrite (mappedValue_inside d H0 H8). split; [reflexivity | field].
  - intros d' [H0 H8] [H0' H8'].
    rewrite (mappedValue_inside d H0 H8), (mappedValue_inside d' H0' H8').
    intros Heq.
    assert (Hd : d == 8 * (d / 8)) by field.
    rewrite Hd, Heq. field.
Qed.

Lemma mappedValue_clamped_linear_witness :
  mappedValue 9 == 1 /\ mappedValue (-1) == 0 /\ mappedValue 2 == 2 / 8.
Proof.
  split; [| split].
  - apply (mappedValue_clamped_linear 9). discriminate.
  - apply (mappedValue_clamped_linear (-1)). discriminate.
  - apply (mappedValue_clamped_linear 2). split; discriminate.
Defined.

End ShaderClaims.

(* ===================================================================== *)
(** * Properties of the drivers *)
(* ===================================================================== *)

Section ProgFacts.
Import GLSL WebXR Framework Runtime Placement Observations.

Lemma run_bind {A B} (m : Prog A) (f : A -> Prog B) (s : State) :
  (m ≫= f) s =
  (fst (fst (f (fst (fst (m s))) (stateAfter m s))),
   stateAfter (f (fst (fst (m s)))) (stateAfter m s),
   callsOf m s ++ callsOf (f (fst (fst (m s)))) (stateAfter m s)).
Proof.
  unfold mbind, prog_bind, stateAfter, callsOf.
  destruct (m s) as [[x s1] t1]; cbn [fst snd].
  destruct (f x s1) as [[y s2] t2]; reflexivity.
Qed.

Lemma stateAfter_bind {A B} (m : Prog A) (f : A -> Prog B) (s : State) :
  stateAfter (m ≫= f) s = stateAfter (f (fst (fst (m s)))) (stateAfter m s).
Proof. unfold stateAfter at 1. rewrite run_bind. reflexivity. Qed.

Lemma callsOf_bind {A B} (m : Prog A) (f : A -> Prog B) (s : State) :
  callsOf (m ≫= f) s
  = callsOf m s ++ callsOf (f (fst (fst (m s)))) (stateAfter m s).
Proof. unfold callsOf at 1. rewrite run_bind. reflexivity. Qed.

Lemma sameObjects_refl (s : State) : sameObjects s s.
Proof. repeat split. Qed.

Lemma sameObjects_trans (s1 s2 s3 : State) :
  sameObjects s1 s2 -> sameObjects s2 s3 -> sameObjects s1 s3.
Proof.
  intros (H1 & H2 & H3 & H4 & H5) (K1 & K2 & K3 & K4 & K5).
  repeat split; congruence.
Qed.

Lemma rendersOnly_ret {A} (x : A) : rendersOnly (mret x).
Proof. intros s. split; [apply sameObjects_refl | constructor]. Qed.

Lemma rendersOnly_get : rendersOnly get.
Proof. intros s. split; [apply sameObjects_refl | constructor]. Qed.

Lemma rendersOnly_call (c : Call) : isObjectCall c = false -> rendersOnly (call c).
Proof.
  intros Hc s. split; [apply sameObjects_refl |].
  constructor; [exact Hc | constructor].
Qed.

Lemma rendersOnly_gl (c : Call) : isObjectCall c = false -> rendersOnly (gl c).
Proof.
  intros Hc s. split; [repeat split |].
  constructor; [exact Hc | constructor].
Qed.

Lemma rendersOnly_drawArrays (first count : Z) : rendersOnly (gl_drawArrays first count).
Proof.
  intros s. split; [apply sameObjects_refl |].
  constructor; [reflexivity | constructor].
Qed.

Lemma rendersOnly_bind {A B} (m : Prog A) (f : A -> Prog B) :
  rendersOnly m -> (forall x, rendersOnly (f x)) -> rendersOnly (m ≫= f).
Proof.
  intros Hm Hf s.
  rewrite stateAfter_bind, callsOf_bind.
  destruct (Hm s) as [Hs1 Hc1].
  destruct (Hf (fst (fst (m s))) (stateAfter m s)) as [Hs2 Hc2].
  split.
  - eapply sameObjects_trans; eassumption.
  - apply Forall_app; split; assumption.
Qed.

Lemma rendersOnly_forEach {A} (xs : list A) (body : A -> Prog unit) :
  (forall x, rendersOnly (body x)) -> rendersOnly (forEach xs body).
Proof.
  intros Hbody. induction xs as [| x rest IH]; cbn [forEach].
  - apply rendersOnly_ret.
  - apply rendersOnly_bind; [apply Hbody | intros _; exact IH].
Qed.

(** Calls that touch no object contain no pose update. *)
Lemma no_object_call_no_pose_update (calls : list Call) :
  Forall (fun c => isObjectCall c = false) calls ->
  filter (fun c => isPoseUpdate c = true) calls = [].
Proof.
  intros Hcalls.
  induction Hcalls as [| c rest Hc _ IH]; [reflexivity |].
  rewrite filter_cons. destruct (decide (isPoseUpdate c = true)) as [Hp | _].
  - destruct c; discriminate.
  - exact IH.
Qed.

Lemma rendersOnly_no_pose_update {A} (m : Prog A) (s : State) :
  rendersOnly m -> filter (fun c => isPoseUpdate c = true) (callsOf m s) = [].
Proof.
  intros Hm. destruct (Hm s) as [_ Hcalls].
  apply no_object_call_no_pose_update; exact Hcalls.
Qed.

End ProgFacts.

Create HintDb renders.

#[local] Hint Resolve rendersOnly_ret rendersOnly_get rendersOnly_drawArrays : renders.

(** Walks through a body made of binds, loops and case distinctions. *)
Ltac renders :=
  repeat first
    [ apply rendersOnly_bind; [| intros ? ]
    | apply rendersOnly_forEach; intros ?
    | apply rendersOnly_call; reflexivity
    | apply rendersOnly_gl; reflexivity
    | solve [ auto with renders ]
    | match goal with
      | |- Observations.rendersOnly (match ?x with _ => _ end) => destruct x
      end ].

Section RenderFacts.
Import GLSL WebXR Framework Runtime Placement Observations.

Lemma depthSensing_rendering_rendersOnly (views : list XRView) :
  rendersOnly (DepthSensing.doTheRendering views).
Proof. unfold DepthSensing.doTheRendering. renders. Qed.

Lemma hitTest_rendering_rendersOnly (views : list XRView) :
  rendersOnly (HitTest.doTheRendering views).
Proof. unfold HitTest.doTheRendering. renders. Qed.

Lemma depthOcclusion_rendering_rendersOnly (views : list XRView) :
  rendersOnly (DepthOcclusion.doTheRendering views).
Proof. unfold DepthOcclusion.doTheRendering. renders. Qed.

End RenderFacts.

Section TrackerFacts.
Import GLSL WebXR Framework Runtime Placement Observations.

Lemma vec3_eta (v : vec3) : Vec3 (x3 v) (y3 v) (z3 v) = v.
Proof. destruct v; reflexivity. Qed.

Lemma quat_eta (q : quat) : Quat (qx q) (qy q) (qz q) (qw q) = q.
Proof. destruct q; reflexivity. Qed.

(** The tracker block on a frame whose first result resolves. *)
Lemma checkForHitResults_hit frame s source hit rest :
  arHitTestSource s = Some source ->
  getHitTestResults frame = Some hit :: rest ->
  checkForHitResults frame s =
  (tt,
   setHeap (alter (setRotation (orientation hit)) (reticleSceneObj s)
              (alter (setPosition (position hit)) (reticleSceneObj s) (heap s))) s,
   [FrameGetHitTestResults; HitResultGetPose;
    SetPosition (reticleSceneObj s) (position hit);
    SetRotation (reticleSceneObj s) (orientation hit)]).
Proof.
  intros Hsrc Hres. unfold checkForHitResults.
  rewrite run_bind. cbn [get stateAfter callsOf fst snd].
  rewrite Hsrc, Hres, vec3_eta, quat_eta.
  reflexivity.
Qed.

(** The tracker block on a frame without a resolving first result:
    nothing is written. *)
Lemma checkForHitResults_miss frame s :
  match getHitTestResults frame with
  | Some _ :: _ => False
  | _ => True
  end ->
  stateAfter (checkForHitResults frame) s = s
  /\ Forall (fun c => isObjectCall c = false) (callsOf (checkForHitResults frame) s).
Proof.
  intros Hmiss. unfold checkForHitResults.
  rewrite stateAfter_bind, callsOf_bind. cbn [get stateAfter callsOf fst snd].
  destruct (arHitTestSource s) as [source |]; [| split; [reflexivity | constructor]].
  destruct (getHitTestResults frame) as [| [hit |] rest]; [| contradiction |];
    (split; [reflexivity | repeat constructor]).
Qed.

(** Without a hit-test source the tracker block does nothing at all. *)
Lemma checkForHitResults_no_source frame s :
  arHitTestSource s = None ->
  checkForHitResults frame s = (tt, s, []).
Proof.
  intros Hsrc. unfold checkForHitResults.
  rewrite run_bind. cbn [get stateAfter callsOf fst snd].
  rewrite Hsrc. reflexivity.
Qed.

(** A frame callback that has a viewer pose, for a page with the tracker
    block; [rendering] is the page's rendering block. *)
Lemma onDrawFrame_shape (rendering : Prog unit) frame s :
  let body := call RequestAnimationFrame ;; call FrameGetViewerPose ;;
              checkForHitResults frame ;; rendering in
  stateAfter body s
    = stateAfter rendering (stateAfter (checkForHitResults frame) s)
  /\ callsOf body s
    = RequestAnimationFrame :: FrameGetViewerPose ::
      callsOf (checkForHitResults frame) s
      ++ callsOf rendering (stateAfter (checkForHitResults frame) s).
Proof.
  cbn zeta.
  rewrite !stateAfter_bind, !callsOf_bind.
  cbn [call stateAfter callsOf fst snd app]. split; reflexivity.
Qed.

End TrackerFacts.

(** Facts shared by the two pages that track a reticle: their frame
    callbacks differ in the rendering block only. *)
Section TrackedPage.
Import GLSL WebXR Framework Runtime Placement Observations.

Variable onDrawFrame : XRFrame -> Prog unit.
Variable rendering : list XRView -> Prog unit.

Hypothesis onDrawFrame_unfold : forall frame,
  onDrawFrame frame =
  (call RequestAnimationFrame ;; call FrameGetViewerPose ;;
   match getViewerPose frame with
   | Some views => checkForHitResults frame ;; rendering views
   | None => mret tt
   end).

Hypothesis rendering_rendersOnly : forall views, rendersOnly (rendering views).

Lemma tracked_frame_without_pose frame s :
  getViewerPose frame = None ->
  onDrawFrame frame s = (tt, s, [RequestAnimationFrame; FrameGetViewerPose]).
Proof.
  intros Hpose. rewrite onDrawFrame_unfold, Hpose. reflexivity.
Qed.

Lemma tracked_frame_with_hit frame s views source hit rest reticle :
  getViewerPose frame = Some views ->
  arHitTestSource s = Some source ->
  getHitTestResults frame = Some hit :: rest ->
  heap s !! reticleSceneObj s = Some reticle ->
  let s' := stateAfter (onDrawFrame frame) s in
  heap s' !! reticleSceneObj s
    = Some (MkSceneObject (modelReference reticle) (position hit)
                          (FromQuat (orientation hit)) (objScale reticle))
  /\ filter (fun c => isPoseUpdate c = true) (callsOf (onDrawFrame frame) s)
     = [SetPosition (reticleSceneObj s) (position hit);
        SetRotation (reticleSceneObj s) (orientation hit)].
Proof.
  intros Hpose Hsrc Hres Hret. cbn zeta.
  rewrite onDrawFrame_unfold, Hpose.
  destruct (onDrawFrame_shape (rendering views) frame s) as [Hstate Hcalls].
  cbn zeta in Hstate, Hcalls. rewrite Hstate, Hcalls. clear Hstate Hcalls.
  pose proof (checkForHitResults_hit frame s source hit rest Hsrc Hres) as Hrun.
  assert (Hstate : stateAfter (checkForHitResults frame) s
            = setHeap (alter (setRotation (orientation hit)) (reticleSceneObj s)
                         (alter (setPosition (position hit)) (reticleSceneObj s)
                            (heap s))) s)
    by (unfold stateAfter; rewrite Hrun; reflexivity).
  assert (Hcalls : callsOf (checkForHitResults frame) s
            = [FrameGetHitTestResults; HitResultGetPose;
               SetPosition (reticleSceneObj s) (position hit);
               SetRotation (reticleSceneObj s) (orientation hit)])
    by (unfold callsOf; rewrite Hrun; reflexivity).
  rewrite Hstate, Hcalls. clear Hstate Hcalls Hrun.
  set (s1 := setHeap _ s).
  destruct (rendering_rendersOnly views s1) as [(Hheap & _) _].
  split.
  - rewrite Hheap. subst s1. cbn [setHeap heap].
    rewrite !list_lookup_alter_eq, Hret. reflexivity.
  - cbn [app]. rewrite !filter_cons. cbn [isPoseUpdate].
    repeat (destruct (decide _) as [? | ?]; try discriminate; try congruence).
    rewrite (rendersOnly_no_pose_update _ s1 (rendering_rendersOnly views)).
    reflexivity.
Qed.

Lemma tracked_frame_without_hit frame s :
  observesHit s (Frame frame) = false ->
  sameObjects s (stateAfter (onDrawFrame frame) s)
  /\ Forall (fun c => isObjectCall c = false) (callsOf (onDrawFrame frame) s).
Proof.
  intros Hmiss. cbn [observesHit] in Hmiss.
  destruct (getViewerPose frame) as [views |] eqn:Hpose.
  - rewrite onDrawFrame_unfold, Hpose.
    destruct (onDrawFrame_shape (rendering views) frame s) as [Hstate Hcalls].
    cbn zeta in Hstate, Hcalls. rewrite Hstate, Hcalls. clear Hstate Hcalls.
    assert (Hcheck : stateAfter (checkForHitResults frame) s = s
              /\ Forall (fun c => isObjectCall c = false)
                        (callsOf (checkForHitResults frame) s)).
    { destruct (arHitTestSource s) as [source |] eqn:Hsrc.
      - apply checkForHitResults_miss.
        destruct (getHitTestResults frame) as [| [hit |] rest];
          [exact I | discriminate | exact I].
      - unfold stateAfter, callsOf.
        rewrite (checkForHitResults_no_source frame s Hsrc).
        split; [reflexivity | constructor]. }
    destruct Hcheck as [Hsame Hquiet]. rewrite Hsame.
    destruct (rendering_rendersOnly views s) as [Hobjects Hrender].
    split; [exact Hobjects |].
    repeat constructor. apply Forall_app; split; assumption.
  - unfold stateAfter, callsOf.
    rewrite (tracked_frame_without_pose frame s Hpose). cbn [fst snd].
    split; [apply sameObjects_refl | repeat constructor].
Qed.

(** A run of frames none of which sees a hit leaves the objects alone. *)
Lemma tracked_frames_without_hit (frames : list XRFrame) (s : State) :
  Forall (fun frame => observesHit s (Frame frame) = false) frames ->
  sameObjects s (stateAfter (run onDrawFrame (map Frame frames)) s).
Proof.
  revert s. induction frames as [| frame rest IH]; intros s Hall.
  - apply sameObjects_refl.
  - inversion Hall as [| ? ? Hframe Hrest]; subst.
    cbn [map run forEach]. rewrite stateAfter_bind. cbn [dispatch].
    destruct (tracked_frame_without_hit frame s Hframe) as [Hsame _].
    eapply sameObjects_trans; [exact Hsame |].
    apply IH.
    eapply List.Forall_impl; [| exact Hrest].
    intros f Hf. cbn [observesHit] in *.
    destruct Hsame as (_ & _ & _ & Hsrc & _). rewrite Hsrc. exact Hf.
Qed.

End TrackedPage.

Section SelectFacts.
Import GLSL WebXR Framework Runtime Placement Observations.

Lemma alter_fresh {A} (f : A -> A) (l : list A) (x : A) :
  alter f (length l) (l ++ [x]) = l ++ [f x].
Proof.
  induction l as [| y l IH]; [reflexivity |].
  cbn [length app]. change (alter f (S (length l)) (y :: (l ++ [x])))
    with (y :: alter f (length l) (l ++ [x])).
  rewrite IH. reflexivity.
Qed.

(** One run of the select handler. *)
Lemma onSelect_run (s : State) (reticle : GLSceneObject) :
  heap s !! reticleSceneObj s = Some reticle ->
  onSelect s =
  (tt,
   setScene (scene s ++ [length (heap s)])
            (setHeap (heap s ++ [placedFrom reticle]) s),
   [CreateModelSceneObjectFromQuats (length (heap s));
    Rotate (length (heap s)) (Vec3 (-90) 0 0);
    AddSceneObjectToScene (length (heap s))]).
Proof.
  intros Hret. unfold onSelect, mbind, prog_bind, get.
  cbv beta iota zeta. rewrite Hret.
  unfold allocate, mutate, addSceneObjectToScene.
  cbv beta iota zeta.
  cbn [setHeap setScene heap scene reticleSceneObj arHitTestSource
       selectListener glProgram app].
  rewrite alter_fresh. reflexivity.
Qed.

Lemma dispatch_select_listening onDrawFrame (s : State) (reticle : GLSceneObject) :
  selectListener s = true ->
  heap s !! reticleSceneObj s = Some reticle ->
  stateAfter (dispatch onDrawFrame Select) s
  = setScene (scene s ++ [length (heap s)])
             (setHeap (heap s ++ [placedFrom reticle]) s).
Proof.
  intros Hlisten Hret. unfold dispatch, stateAfter, mbind, prog_bind, get.
  cbv beta iota zeta.
  rewrite Hlisten, (onSelect_run s reticle Hret). reflexivity.
Qed.

Lemma hitTest_onDrawFrame_unfold frame :
  HitTest.onDrawFrame frame =
  (call RequestAnimationFrame ;; call FrameGetViewerPose ;;
   match getViewerPose frame with
   | Some views => checkForHitResults frame ;; HitTest.doTheRendering views
   | None => mret tt
   end).
Proof. reflexivity. Qed.

Lemma depthOcclusion_onDrawFrame_unfold frame :
  DepthOcclusion.onDrawFrame frame =
  (call RequestAnimationFrame ;; call FrameGetViewerPose ;;
   match getViewerPose frame with
   | Some views => checkForHitResults frame ;; DepthOcclusion.doTheRendering views
   | None => mret tt
   end).
Proof. reflexivity. Qed.

End SelectFacts.

Section TrackerClaims.
Import GLSL WebXR Framework Runtime Placement Observations Samples.

(** C4.  On both pages with a reticle (the depth-occlusion page and the
    hit-test page), a frame whose hit-test query returns a first result
    with a pose overwrites the reticle's position and orientation with
    that pose, through exactly one [setPosition] and one [setRotation];
    a frame whose query returns no result leaves every scene object as
    it was and makes no pose update. *)
Theorem reticle_follows_first_hit
    (onDrawFrame : XRFrame -> Prog unit) (frame : XRFrame) (s : State) :
  onDrawFrame = HitTest.onDrawFrame \/ onDrawFrame = DepthOcclusion.onDrawFrame ->
  let s' := stateAfter (onDrawFrame frame) s in
  let updates := filter (fun c => isPoseUpdate c = true)
                        (callsOf (onDrawFrame frame) s) in
  (forall views source hit rest reticle,
      getViewerPose frame = Some views ->
      arHitTestSource s = Some source ->
      getHitTestResults frame = Some hit :: rest ->
      heap s !! reticleSceneObj s = Some reticle ->
      heap s' !! reticleSceneObj s
        = Some (MkSceneObject (modelReference reticle) (position hit)
                              (FromQuat (orientation hit)) (objScale reticle))
      /\ updates = [SetPosition (reticleSceneObj s) (position hit);
                    SetRotation (reticleSceneObj s) (orientation hit)])
  /\ (getHitTestResults frame = [] -> heap s' = heap s /\ updates = []).
Proof.
  intros Hpage. cbn zeta.
  assert (Hshape : exists rendering,
             (forall f, onDrawFrame f =
                (call RequestAnimationFrame ;; call FrameGetViewerPose ;;
                 match getViewerPose f with
                 | Some views => checkForHitResults f ;; rendering views
                 | None => mret tt
                 end))
             /\ (forall views, rendersOnly (rendering views))).
  { destruct Hpage as [-> | ->]; eexists; split.
    - exact hitTest_onDrawFrame_unfold.
    - exact hitTest_rendering_rendersOnly.
    - exact depthOcclusion_onDrawFrame_unfold.
    - exact depthOcclusion_rendering_rendersOnly. }
  destruct Hshape as (rendering & Hunfold & Hrender).
  split.
  - intros views source hit rest reticle Hpose Hsrc Hres Hret.
    exact (tracked_frame_with_hit onDrawFrame rendering Hunfold Hrender
             frame s views source hit rest reticle Hpose Hsrc Hres Hret).
  - intros Hres.
    assert (Hmiss : observesHit s (Frame frame) = false).
    { cbn [observesHit]. rewrite Hres.
      destruct (getViewerPose frame), (arHitTestSource s); reflexivity. }
    destruct (tracked_frame_without_hit onDrawFrame rendering Hunfold Hrender
                frame s Hmiss) as [(Hheap & _) Hcalls].
    split; [exact Hheap | apply no_object_call_no_pose_update; exact Hcalls].
Qed.

Lemma reticle_follows_first_hit_witness :
  (heap (stateAfter (DepthOcclusion.onDrawFrame frameWithHit) started) !! 0%nat
     = Some (MkSceneObject ReticleModel (Vec3 1 2 3) (FromQuat (Quat 0 0 0 1))
                           (Vec3 1 1 1))
   /\ filter (fun c => isPoseUpdate c = true)
             (callsOf (DepthOcclusion.onDrawFrame frameWithHit) started)
      = [SetPosition 0 (Vec3 1 2 3); SetRotation 0 (Quat 0 0 0 1)])
  /\ heap (stateAfter (DepthOcclusion.onDrawFrame frameWithoutHit) started)
     = heap started.
Proof.
  split.
  - apply (proj1 (reticle_follows_first_hit DepthOcclusion.onDrawFrame
                    frameWithHit started (or_intror eq_refl))
             [camera] HitTestSource floorHit [] theReticle); reflexivity.
  - apply (proj2 (reticle_follows_first_hit DepthOcclusion.onDrawFrame
                    frameWithoutHit started (or_intror eq_refl))).
    reflexivity.
Defined.

(** C10.  On both pages with a reticle, a frame whose hit-test query
    returns results but whose first result has no pose ([getPose] returns
    null) leaves every scene object, the reticle included, as it was and
    makes no pose update. *)
Theorem unresolved_first_hit_keeps_pose
    (onDrawFrame : XRFrame -> Prog unit) (frame : XRFrame) (s : State)
    (rest : list (option XRRigidTransform)) :
  onDrawFrame = HitTest.onDrawFrame \/ onDrawFrame = DepthOcclusion.onDrawFrame ->
  getHitTestResults frame = None :: rest ->
  heap (stateAfter (onDrawFrame frame) s) = heap s
  /\ reticleSceneObj (stateAfter (onDrawFrame frame) s) = reticleSceneObj s
  /\ filter (fun c => isPoseUpdate c = true) (callsOf (onDrawFrame frame) s) = [].
Proof.
  intros Hpage Hres.
  assert (Hmiss : observesHit s (Frame frame) = false).
  { cbn [observesHit]. rewrite Hres.
    destruct (getViewerPose frame), (arHitTestSource s); reflexivity. }
  assert (Hquiet : sameObjects s (stateAfter (onDrawFrame frame) s)
            /\ Forall (fun c => isObjectCall c = false) (callsOf (onDrawFrame frame) s)).
  { destruct Hpage as [-> | ->].
    - exact (tracked_frame_without_hit HitTest.onDrawFrame HitTest.doTheRendering
               hitTest_onDrawFrame_unfold hitTest_rendering_rendersOnly
               frame s Hmiss).
    - exact (tracked_frame_without_hit DepthOcclusion.onDrawFrame
               DepthOcclusion.doTheRendering depthOcclusion_onDrawFrame_unfold
               depthOcclusion_rendering_rendersOnly frame s Hmiss). }
  destruct Hquiet as [(Hheap & _ & Href & _) Hcalls].
  split; [exact Hheap | split; [exact Href |]].
  apply no_object_call_no_pose_update; exact Hcalls.
Qed.

Lemma unresolved_first_hit_keeps_pose_witness :
  heap (stateAfter (DepthOcclusion.onDrawFrame frameUnresolvedHit) started)
    = heap started
  /\ heap (stateAfter (HitTest.onDrawFrame frameUnresolvedHit) started)
    = heap started.
Proof.
  split.
  - apply (unresolved_first_hit_keeps_pose DepthOcclusion.onDrawFrame
             frameUnresolvedHit started []); [right |]; reflexivity.
  - apply (unresolved_first_hit_keeps_pose HitTest.onDrawFrame
             frameUnresolvedHit started []); [left |]; reflexivity.
Defined.

End TrackerClaims.

Section CommitClaims.
Import GLSL WebXR Framework Runtime Placement Observations Samples.

(** C6 (as amended).  The select handler is registered exactly when
    [startARSession] finds AR supported and the session offers a hit-test
    source; a select event without a registered handler does nothing; and
    once the handler is registered, every select event creates one scene
    object from the reticle's current pose, whatever frames came before. *)
Theorem select_acts_whenever_listening :
  (forall host s,
      selectListener (stateAfter (startARSession host) s) = true
      <-> (selectListener s = true
           \/ (isARSupported host = true /\ is_Some (requestHitTestSource host))))
  /\ (forall onDrawFrame s,
        selectListener s = false ->
        dispatch onDrawFrame Select s = (tt, s, []))
  /\ (forall onDrawFrame s reticle,
        selectListener s = true ->
        heap s !! reticleSceneObj s = Some reticle ->
        let s' := stateAfter (dispatch onDrawFrame Select) s in
        heap s' = heap s ++ [placedFrom reticle]
        /\ scene s' = scene s ++ [length (heap s)]).
Proof.
  split; [| split].
  - intros [supported source] s. unfold startARSession; cbn [isARSupported requestHitTestSource].
    destruct supported; cbn [negb].
    + destruct source as [source |].
      * rewrite stateAfter_bind. cbn. split; [intros _; right; split; eauto | reflexivity].
      * rewrite stateAfter_bind. cbn. split; [intros H; left; exact H |].
        intros [H | [_ [x Hx]]]; [exact H | discriminate].
    + cbn. split; [intros H; left; exact H |].
      intros [H | [Hf _]]; [exact H | discriminate].
  - intros onDrawFrame s Hoff. unfold dispatch, mbind, prog_bind, get.
    cbv beta iota zeta. rewrite Hoff. reflexivity.
  - intros onDrawFrame s reticle Hon Hret. cbn zeta.
    rewrite (dispatch_select_listening onDrawFrame s reticle Hon Hret).
    split; reflexivity.
Qed.

Lemma select_acts_whenever_listening_witness :
  selectListener started = true
  /\ dispatch DepthOcclusion.onDrawFrame Select afterMain = (tt, afterMain, [])
  /\ heap (stateAfter (dispatch DepthOcclusion.onDrawFrame Select) started)
     = [theReticle; placedFrom theReticle].
Proof.
  destruct select_acts_whenever_listening as (Hreg & Hoff & Hon).
  split; [| split].
  - apply (Hreg phone afterMain). right. split; [reflexivity | eexists; reflexivity].
  - apply (Hoff DepthOcclusion.onDrawFrame afterMain). reflexivity.
  - apply (Hon DepthOcclusion.onDrawFrame started theReticle); reflexivity.
Defined.

(** C6 as stated fails: right after the session has started, with no
    frame delivered and so no hit ever observed, a select event is acted
    upon and puts an object at the reticle's initial pose. *)
Lemma select_before_any_hit_places_object :
  hitObservedDuring DepthOcclusion.onDrawFrame [] started = false
  /\ ~ (scene (stateAfter (run DepthOcclusion.onDrawFrame ([] ++ [Select])) started)
        = scene (stateAfter (run DepthOcclusion.onDrawFrame []) started))
  /\ heap (stateAfter (run DepthOcclusion.onDrawFrame ([] ++ [Select])) started)
       !! 1%nat
     = Some (MkSceneObject YoshikageKira (Vec3 0 0 0)
               (Rotated (Vec3 (-90) 0 0) (FromEuler (Vec3 0 0 0)))
               (Vec3 (1 # 2) (1 # 2) (1 # 2))).
Proof.
  split; [reflexivity | split; [| reflexivity]].
  vm_compute. discriminate.
Qed.

End CommitClaims.

Section FrameClaims.
Import GLSL DepthShader WebXR Framework Runtime Placement Observations Samples.

(** C7.  On each of the three pages, the first call of the frame callback
    is [requestAnimationFrame]; when the frame has no viewer pose the
    callback makes that call and the pose query and nothing else: no
    clear, no draw call, and the state is untouched. *)
Theorem onDrawFrame_rearms_first
    (onDrawFrame : XRFrame -> Prog unit) (frame : XRFrame) (s : State) :
  onDrawFrame = DepthSensing.onDrawFrame \/ onDrawFrame = HitTest.onDrawFrame
    \/ onDrawFrame = DepthOcclusion.onDrawFrame ->
  (exists rest, callsOf (onDrawFrame frame) s = RequestAnimationFrame :: rest)
  /\ (getViewerPose frame = None ->
      callsOf (onDrawFrame frame) s = [RequestAnimationFrame; FrameGetViewerPose]
      /\ filter (fun c => isClearOrDraw c = true) (callsOf (onDrawFrame frame) s) = []
      /\ stateAfter (onDrawFrame frame) s = s).
Proof.
  intros Hpage.
  assert (Hhead : exists k, onDrawFrame frame = (call RequestAnimationFrame ;; k)
            /\ (getViewerPose frame = None ->
                k = (call FrameGetViewerPose ;; mret tt))).
  { destruct Hpage as [-> | [-> | ->]];
      (eexists; split; [reflexivity |]); intros Hpose; rewrite Hpose; reflexivity. }
  destruct Hhead as (k & Hrun & Hskip). rewrite Hrun. split.
  - rewrite callsOf_bind. eexists. reflexivity.
  - intros Hpose. rewrite (Hskip Hpose). repeat split.
Qed.

Lemma onDrawFrame_rearms_first_witness :
  callsOf (DepthOcclusion.onDrawFrame frameWithoutPose) started
    = [RequestAnimationFrame; FrameGetViewerPose]
  /\ callsOf (DepthSensing.onDrawFrame frameWithoutPose) DepthSensing.afterMain
    = [RequestAnimationFrame; FrameGetViewerPose].
Proof.
  split.
  - apply (onDrawFrame_rearms_first DepthOcclusion.onDrawFrame
             frameWithoutPose started); [right; right |]; reflexivity.
  - apply (onDrawFrame_rearms_first DepthSensing.onDrawFrame
             frameWithoutPose DepthSensing.afterMain); [left |]; reflexivity.
Defined.

(** C8.  The code misses the claim on a snapshot of odd width with two or
    more rows.  For the 3x2 snapshot [twoMetersOdd], every pixel of which
    decodes to 2 meters, delivered as the first frame of the depth-sensing
    page: [texImage2D] does not accept the tightly packed buffer (rows
    start on multiples of 4, so 14 bytes are required and 12 are given),
    the depth texture stays without image, and every fragment of the draw
    is white, (1, 1, 1, 1), not the gray 0.25. *)
Theorem odd_width_snapshot_is_not_drawn
    (sampleImage : Z -> Z -> list Z -> sampler2D) (fragCoord : vec2) :
  Forall (fun texel => MoreObservations.texelMeters (rawValueToMeters twoMetersOdd) texel == 2)
         (MoreObservations.texelsOf (data twoMetersOdd))
  /\ Z.of_nat (length (data twoMetersOdd))
     = (2 * width twoMetersOdd * height twoMetersOdd)%Z
  /\ requiredBytes (width twoMetersOdd) (height twoMetersOdd) = 14%Z
  /\ texImageAccepted (width twoMetersOdd) (height twoMetersOdd) (data twoMetersOdd)
     = false
  /\ depthTextureImage
       (glProgram (stateAfter (DepthSensing.onDrawFrame frameOddSnapshot)
                              DepthSensing.afterMain)) = None
  /\ exists color,
       DepthSensing.fragmentColors sampleImage
         (callsOf (DepthSensing.onDrawFrame frameOddSnapshot) DepthSensing.afterMain)
         fragCoord = [color]
       /\ vec4_eq color (Vec4 1 1 1 1)
       /\ ~ r color == 1 # 4.
Proof.
  split; [| split; [| split; [| split; [| split]]]].
  - repeat constructor.
  - reflexivity.
  - reflexivity.
  - reflexivity.
  - reflexivity.
  - eexists. split; [reflexivity |].
    split.
    + repeat split; vm_compute; reflexivity.
    + vm_compute. discriminate.
Qed.

End FrameClaims.

(* ===================================================================== *)
(** * Further properties of the shader *)
(* ===================================================================== *)

Section ShaderExtras.
Import GLSL DepthShader.

(** X3.  With an input range that goes up and an output range that does
    not go down, [mapRange] preserves order. *)
Theorem mapRange_monotone (v1 v2 inputMin inputMax outputMin outputMax : Q) :
  inputMin < inputMax ->
  outputMin <= outputMax ->
  v1 <= v2 ->
  mapRange v1 inputMin inputMax outputMin outputMax
  <= mapRange v2 inputMin inputMax outputMin outputMax.
Proof.
  intros Hin Hout Hv. unfold mapRange.
  apply Qplus_le_r.
  apply Qmult_le_compat_r.
  - apply Qmult_le_compat_r; lra.
  - apply Qlt_le_weak, Qinv_lt_0_compat. lra.
Qed.

Lemma mapRange_monotone_witness :
  mapRange 1 0 8 0 1 <= mapRange 5 0 8 0 1.
Proof.
  apply (mapRange_monotone 1 5 0 8 0 1); [reflexivity | discriminate | discriminate].
Defined.

(** X4.  On a texel of two bytes and with a non-negative scale, the
    decoded depth lies between 0 and [65535 * scale]. *)
Theorem depthGetMeters_byte_range
    (scale : Q) (tex : sampler2D) (uv : vec2) (low high : Z) :
  0 <= scale ->
  (0 <= low <= 255)%Z -> (0 <= high <= 255)%Z ->
  vec4_eq (texture tex uv) (luminanceAlphaTexel low high) ->
  0 <= depthGetMeters scale tex uv <= 65535 * scale.
Proof.
  intros Hscale [Hl0 Hl1] [Hh0 Hh1] Htexel.
  rewrite (depthGetMeters_texel scale tex uv low high Htexel).
  rewrite Zle_Qle in Hl0, Hl1, Hh0, Hh1.
  split.
  - apply Qmult_le_0_compat; [| exact Hscale].
    change (inject_Z 0) with 0 in *. lra.
  - apply Qmult_le_compat_r; [| exact Hscale].
    change (inject_Z 255) with 255 in *. lra.
Qed.

Lemma depthGetMeters_byte_range_witness :
  0 <= depthGetMeters (1 # 1000) (fun _ => luminanceAlphaTexel 255 255) (0, 0)
    <= 65535 * (1 # 1000).
Proof.
  apply (depthGetMeters_byte_range (1 # 1000) _ (0, 0) 255 255).
  - discriminate.
  - lia.
  - lia.
  - apply vec4_eq_refl.
Defined.

(** X5.  With a positive scale the decoder loses nothing: two byte texels
    that decode to the same depth have the same low and the same high
    byte. *)
Theorem depthGetMeters_injective_on_bytes
    (scale : Q) (tex1 tex2 : sampler2D) (uv1 uv2 : vec2)
    (low1 high1 low2 high2 : Z) :
  0 < scale ->
  (0 <= low1 <= 255)%Z -> (0 <= low2 <= 255)%Z ->
  vec4_eq (texture tex1 uv1) (luminanceAlphaTexel low1 high1) ->
  vec4_eq (texture tex2 uv2) (luminanceAlphaTexel low2 high2) ->
  depthGetMeters scale tex1 uv1 == depthGetMeters scale tex2 uv2 ->
  low1 = low2 /\ high1 = high2.
Proof.
  intros Hscale Hl1 Hl2 H1 H2 Heq.
  rewrite (depthGetMeters_texel _ _ _ _ _ H1), (depthGetMeters_texel _ _ _ _ _ H2) in Heq.
  apply Qmult_inj_r in Heq; [| intros Hz; rewrite Hz in Hscale; discriminate].
  assert (Hz : (low1 + high1 * 256 = low2 + high2 * 256)%Z).
  { apply (proj1 (inject_Z_injective _ _)).
    rewrite !inject_Z_plus, !inject_Z_mult. exact Heq. }
  lia.
Qed.

Lemma depthGetMeters_injective_on_bytes_witness :
  244%Z = 244%Z /\ 1%Z = 1%Z.
Proof.
  apply (depthGetMeters_injective_on_bytes (1 # 250)
           (fun _ => luminanceAlphaTexel 244 1) (fun _ => luminanceAlphaTexel 244 1)
           (0, 0) (1, 1) 244 1 244 1).
  - reflexivity.
  - lia.
  - lia.
  - apply vec4_eq_refl.
  - apply vec4_eq_refl.
  - reflexivity.
Defined.

Lemma mappedValue_range (d : Q) : 0 <= mappedValue d <= 1.
Proof.
  unfold mappedValue. rewrite mapRange_unit.
  destruct (Qlt_le_dec d 0) as [Hneg | Hpos].
  - rewrite (clamp_below d 0 kMaxDepth) by (unfold kMaxDepth; lra).
    split; discriminate.
  - destruct (Qlt_le_dec 8 d) as [Hbig | Hsmall].
    + rewrite (clamp_above d 0 kMaxDepth) by (unfold kMaxDepth; lra).
      unfold kMaxDepth. split; discriminate.
    + rewrite (clamp_inside d 0 kMaxDepth) by (unfold kMaxDepth; lra).
      assert (Hdiv : d / 8 == d * (1 # 8)) by field.
      rewrite Hdiv. lra.
Qed.

(** X6.  Whatever the uniforms and the fragment, [main] writes an opaque
    gray: the three colour channels are the same value of [0,1] and alpha
    is 1. *)
Theorem main_writes_opaque_gray (u : Uniforms) (fragCoord : vec2) :
  g (main u fragCoord) = r (main u fragCoord)
  /\ b (main u fragCoord) = r (main u fragCoord)
  /\ a (main u fragCoord) = 1
  /\ 0 <= r (main u fragCoord) <= 1.
Proof.
  unfold main; cbn [r g b a].
  repeat split; apply mappedValue_range.
Qed.

End ShaderExtras.

(* ===================================================================== *)
(** * Further properties of the drivers *)
(* ===================================================================== *)

Section CallFacts.
Import GLSL WebXR Framework Runtime Placement Observations MoreObservations.

Lemma callsSatisfy_ret {A} (P : Call -> Prop) (x : A) : callsSatisfy P (mret x).
Proof. intros s. constructor. Qed.

Lemma callsSatisfy_get (P : Call -> Prop) : callsSatisfy P get.
Proof. intros s. constructor. Qed.

Lemma callsSatisfy_call (P : Call -> Prop) (c : Call) : P c -> callsSatisfy P (call c).
Proof. intros Hc s. constructor; [exact Hc | constructor]. Qed.

Lemma callsSatisfy_gl (P : Call -> Prop) (c : Call) : P c -> callsSatisfy P (gl c).
Proof. intros Hc s. constructor; [exact Hc | constructor]. Qed.

Lemma callsSatisfy_drawArrays (P : Call -> Prop) (first count : Z) :
  (forall p, P (DrawArrays first count p)) -> callsSatisfy P (gl_drawArrays first count).
Proof. intros Hc s. constructor; [apply Hc | constructor]. Qed.

Lemma callsSatisfy_mutate (P : Call -> Prop) (ref : nat)
    (f : GLSceneObject -> GLSceneObject) (c : Call) :
  P c -> callsSatisfy P (mutate ref f c).
Proof. intros Hc s. constructor; [exact Hc | constructor]. Qed.

Lemma callsSatisfy_bind {A B} (P : Call -> Prop) (m : Prog A) (f : A -> Prog B) :
  callsSatisfy P m -> (forall x, callsSatisfy P (f x)) -> callsSatisfy P (m ≫= f).
Proof.
  intros Hm Hf s. rewrite callsOf_bind.
  apply Forall_app; split; [apply Hm | apply Hf].
Qed.

Lemma callsSatisfy_forEach {A} (P : Call -> Prop) (xs : list A) (body : A -> Prog unit) :
  (forall x, callsSatisfy P (body x)) -> callsSatisfy P (forEach xs body).
Proof.
  intros Hbody. induction xs as [| x rest IH]; cbn [forEach].
  - apply callsSatisfy_ret.
  - apply callsSatisfy_bind; [apply Hbody | intros _; exact IH].
Qed.

Lemma stateAfter_forEach_snoc {A} (xs : list A) (x : A) (body : A -> Prog unit) (s : State) :
  stateAfter (forEach (xs ++ [x]) body) s
  = stateAfter (body x) (stateAfter (forEach xs body) s).
Proof.
  revert s. induction xs as [| y rest IH]; intros s; cbn [app forEach].
  - rewrite stateAfter_bind. reflexivity.
  - rewrite !stateAfter_bind. apply IH.
Qed.

(** Counting the calls of a kind over a loop whose every turn makes the
    same number of them. *)
Lemma forEach_count {A} (P : Call -> Prop) `{!forall c, Decision (P c)}
    (xs : list A) (body : A -> Prog unit) (n : nat) :
  (forall x s, length (filter P (callsOf (body x) s)) = n) ->
  forall s, length (filter P (callsOf (forEach xs body) s)) = (n * length xs)%nat.
Proof.
  intros Hbody. induction xs as [| x rest IH]; intros s; cbn [forEach length].
  - rewrite Nat.mul_0_r. reflexivity.
  - rewrite callsOf_bind, list.filter_app, length_app, Hbody, IH. lia.
Qed.

(** Filtering the calls of a loop whose every turn contributes the same
    list, one that the turns themselves do not change. *)
Lemma forEach_filter {A} (P : Call -> Prop) `{!forall c, Decision (P c)}
    (xs : list A) (body : A -> Prog unit) (k : State -> list Call) :
  (forall x s, filter P (callsOf (body x) s) = k s) ->
  (forall x s, k (stateAfter (body x) s) = k s) ->
  forall s, filter P (callsOf (forEach xs body) s)
            = concat (replicate (length xs) (k s)).
Proof.
  intros Hbody Hkeep. induction xs as [| x rest IH]; intros s; cbn [forEach length].
  - reflexivity.
  - rewrite callsOf_bind, list.filter_app, Hbody, IH, Hkeep. reflexivity.
Qed.

Lemma setGLProgram_same (s : State) : setGLProgram (glProgram s) s = s.
Proof. destruct s; reflexivity. Qed.

End CallFacts.

Create HintDb calls.

#[local] Hint Resolve callsSatisfy_ret callsSatisfy_get : calls.

(** Walks through a body, leaving the checks on the single calls. *)
Ltac calls_satisfy :=
  repeat first
    [ apply callsSatisfy_bind; [| intros ? ]
    | apply callsSatisfy_forEach; intros ?
    | apply callsSatisfy_call
    | apply callsSatisfy_gl
    | apply callsSatisfy_mutate
    | apply callsSatisfy_drawArrays; intros ?
    | solve [ auto with calls ]
    | match goal with
      | |- MoreObservations.callsSatisfy _ (match ?x with _ => _ end) => destruct x
      end ].

Section RenderingExtras.
Import GLSL DepthShader WebXR Framework Runtime Placement Observations MoreObservations Samples.

Lemma stateAfter_call (c : Call) (s : State) : stateAfter (call c) s = s.
Proof. reflexivity. Qed.

Lemma callsOf_call (c : Call) (s : State) : callsOf (call c) s = [c].
Proof. reflexivity. Qed.

Lemma callsOf_gl (c : Call) (s : State) : callsOf (gl c) s = [c].
Proof. reflexivity. Qed.

(** A GL call that writes none of the depth uniforms and uploads nothing
    leaves the state as it is. *)
Lemma stateAfter_gl_inert (c : Call) (s : State) :
  (forall p, applyGL c p = p) -> stateAfter (gl c) s = s.
Proof.
  intros Hinert. unfold stateAfter, gl; cbn [fst snd].
  rewrite Hinert. apply setGLProgram_same.
Qed.

Lemma glProgram_gl (c : Call) (s : State) :
  glProgram (stateAfter (gl c) s) = applyGL c (glProgram s).
Proof. reflexivity. Qed.

(** One turn of the depth-sensing loop for a view without depth
    information: the draw runs on the program state as it is. *)
Lemma depthSensing_turn_without_depth (view : XRView) (k : Prog unit) (s : State) :
  depthInformation view = None ->
  (call LayerGetViewport ;; call (SetViewPort (viewport view)) ;;
   call FrameGetDepthInformation ;;
   match depthInformation view with
   | Some depthInfo =>
       gl (ActiveTexture 0) ;; gl BindTexture ;;
       gl (TexImage2D (width depthInfo) (height depthInfo) (data depthInfo)) ;;
       gl (Uniform1i UDepthTexture 0) ;;
       gl (UniformMatrix4fv UDepthUVTransform (normDepthBufferFromNormView depthInfo)) ;;
       gl (Uniform1f UDepthScale (rawValueToMeters depthInfo)) ;;
       gl (Uniform2f UResolution (vp_width (viewport view)) (vp_height (viewport view)))
   | None => mret tt
   end ;;
   gl_drawArrays 0 6) s
  = (tt, s, [LayerGetViewport; SetViewPort (viewport view); FrameGetDepthInformation;
             DrawArrays 0 6 (glProgram s)]).
Proof. intros Hnone. rewrite Hnone. reflexivity. Qed.

(** One turn of the depth-sensing loop for a view with depth information:
    the draw runs on the uploaded snapshot. *)
Lemma depthSensing_turn_with_depth (view : XRView) (depthInfo : XRDepthInformation) (s : State) :
  depthInformation view = Some depthInfo ->
  let turn :=
    (call LayerGetViewport ;; call (SetViewPort (viewport view)) ;;
     call FrameGetDepthInformation ;;
     match depthInformation view with
     | Some depthInfo =>
         gl (ActiveTexture 0) ;; gl BindTexture ;;
         gl (TexImage2D (width depthInfo) (height depthInfo) (data depthInfo)) ;;
         gl (Uniform1i UDepthTexture 0) ;;
         gl (UniformMatrix4fv UDepthUVTransform (normDepthBufferFromNormView depthInfo)) ;;
         gl (Uniform1f UDepthScale (rawValueToMeters depthInfo)) ;;
         gl (Uniform2f UResolution (vp_width (viewport view)) (vp_height (viewport view)))
     | None => mret tt
     end ;;
     gl_drawArrays 0 6) in
  stateAfter turn s = setGLProgram (uploaded 0 view depthInfo (glProgram s)) s
  /\ filter (fun c => isDraw c = true) (callsOf turn s)
     = [DrawArrays 0 6 (uploaded 0 view depthInfo (glProgram s))].
Proof.
  intros Hsome. cbn zeta. rewrite Hsome. split; reflexivity.
Qed.

(** X7.  On the depth-sensing page a frame with a viewer pose issues one
    [drawArrays(TRIANGLES, 0, 6)] per view, whether or not the view has
    depth information. *)
Theorem depthSensing_one_draw_per_view (frame : XRFrame) (views : list XRView) (s : State) :
  getViewerPose frame = Some views ->
  length (filter (fun c => isDraw c = true) (callsOf (DepthSensing.onDrawFrame frame) s))
    = length views
  /\ Forall (fun c => isDraw c = true -> exists p, c = DrawArrays 0 6 p)
            (callsOf (DepthSensing.onDrawFrame frame) s).
Proof.
  intros Hpose. unfold DepthSensing.onDrawFrame. rewrite Hpose. split.
  - unfold DepthSensing.doTheRendering.
    rewrite !callsOf_bind, !list.filter_app, !length_app.
    match goal with
    | |- context [forEach views ?b] =>
        rewrite (forEach_count (fun c => isDraw c = true) views b 1)
    end.
    + cbn. repeat case_decide; try discriminate. cbn [length]. lia.
    + intros view s0. destruct (depthInformation view) as [depthInfo |] eqn:Hinfo.
      * pose proof (depthSensing_turn_with_depth view depthInfo s0 Hinfo) as [_ Hdraws].
        cbn zeta in Hdraws. rewrite Hinfo in Hdraws. rewrite Hdraws. reflexivity.
      * pose proof (depthSensing_turn_without_depth view (mret tt) s0 Hinfo) as Hrun.
        rewrite Hinfo in Hrun. unfold callsOf. rewrite Hrun. reflexivity.
  - revert s.
    change (callsSatisfy (fun c => isDraw c = true -> exists p, c = DrawArrays 0 6 p)
              (call RequestAnimationFrame ;; call FrameGetViewerPose ;;
               DepthSensing.doTheRendering views)).
    unfold DepthSensing.doTheRendering.
    calls_satisfy; first [ discriminate | intros _; eexists; reflexivity ].
Qed.

Lemma depthSensing_one_draw_per_view_witness :
  length (filter (fun c => isDraw c = true)
            (callsOf (DepthSensing.onDrawFrame frameWithHit) DepthSensing.afterMain))
  = 1%nat.
Proof.
  apply (depthSensing_one_draw_per_view frameWithHit [camera] DepthSensing.afterMain).
  reflexivity.
Defined.

(** The rendering block of the depth-sensing page when no view has depth
    information. *)
Lemma depthSensing_rendering_without_depth (views : list XRView) (s : State) :
  Forall (fun view => depthInformation view = None) views ->
  stateAfter (DepthSensing.doTheRendering views) s = s
  /\ filter (fun c => isDraw c = true) (callsOf (DepthSensing.doTheRendering views) s)
     = replicate (length views) (DrawArrays 0 6 (glProgram s)).
Proof.
  intros Hnone. unfold DepthSensing.doTheRendering.
  match goal with |- context [forEach views ?b] => set (body := b) end.
  assert (Hloop : stateAfter (forEach views body) s = s
            /\ filter (fun c => isDraw c = true) (callsOf (forEach views body) s)
               = replicate (length views) (DrawArrays 0 6 (glProgram s))).
  { induction Hnone as [| view rest Hview _ IH]; [split; reflexivity |].
    cbn [forEach length replicate].
    rewrite stateAfter_bind, callsOf_bind, list.filter_app. cbv beta.
    assert (Hturn : body view s
              = (tt, s, [LayerGetViewport; SetViewPort (viewport view);
                         FrameGetDepthInformation; DrawArrays 0 6 (glProgram s)]))
      by (subst body; cbv beta;
          exact (depthSensing_turn_without_depth view (mret tt) s Hview)).
    assert (Hturn_state : stateAfter (body view) s = s)
      by (unfold stateAfter; rewrite Hturn; reflexivity).
    assert (Hturn_calls : callsOf (body view) s
              = [LayerGetViewport; SetViewPort (viewport view);
                 FrameGetDepthInformation; DrawArrays 0 6 (glProgram s)])
      by (unfold callsOf; rewrite Hturn; reflexivity).
    rewrite Hturn_state, Hturn_calls.
    destruct IH as [IHstate IHcalls]. rewrite IHstate, IHcalls.
    split; reflexivity. }
  destruct Hloop as [Hstate Hcalls].
  rewrite !stateAfter_bind, !callsOf_bind. cbv beta.
  rewrite !stateAfter_call.
  rewrite !(stateAfter_gl_inert (BindFramebuffer LayerFramebuffer)) by reflexivity.
  rewrite !(stateAfter_gl_inert (ClearColor 0 0 0 0)) by reflexivity.
  rewrite !(stateAfter_gl_inert Clear) by reflexivity.
  rewrite Hstate.
  rewrite !(stateAfter_gl_inert UseProgramNull) by reflexivity.
  rewrite !(stateAfter_gl_inert (BindFramebuffer NullFramebuffer)) by reflexivity.
  split; [reflexivity |].
  rewrite !list.filter_app, Hcalls, !callsOf_gl, callsOf_call.
  cbn [app]. rewrite app_nil_r. reflexivity.
Qed.

(** X8.  On the depth-sensing page a frame none of whose views has depth
    information uploads nothing and writes no uniform: the state is
    unchanged, and every draw consumes the program state left by earlier
    frames. *)
Theorem depthSensing_without_depth_draws_stale
    (frame : XRFrame) (views : list XRView) (s : State) :
  getViewerPose frame = Some views ->
  Forall (fun view => depthInformation view = None) views ->
  stateAfter (DepthSensing.onDrawFrame frame) s = s
  /\ filter (fun c => isDraw c = true) (callsOf (DepthSensing.onDrawFrame frame) s)
     = replicate (length views) (DrawArrays 0 6 (glProgram s)).
Proof.
  intros Hpose Hnone. unfold DepthSensing.onDrawFrame. rewrite Hpose.
  destruct (depthSensing_rendering_without_depth views s Hnone) as [Hstate Hcalls].
  rewrite !stateAfter_bind, !callsOf_bind. cbv beta.
  rewrite !stateAfter_call, Hstate. split; [reflexivity |].
  rewrite !list.filter_app, Hcalls. reflexivity.
Qed.

Lemma depthSensing_without_depth_draws_stale_witness :
  stateAfter (DepthSensing.onDrawFrame
                (MkFrame (Some [MkView identity4 identity4 (MkViewport 0 0 640 480) None])
                         []))
             (stateAfter (DepthSensing.onDrawFrame frameWithHit) DepthSensing.afterMain)
  = stateAfter (DepthSensing.onDrawFrame frameWithHit) DepthSensing.afterMain.
Proof.
  apply (depthSensing_without_depth_draws_stale
           (MkFrame (Some [MkView identity4 identity4 (MkViewport 0 0 640 480) None]) [])
           [MkView identity4 identity4 (MkViewport 0 0 640 480) None]).
  - reflexivity.
  - repeat constructor.
Defined.

Lemma fragmentColors_of_draws (sampleImage : Z -> Z -> list Z -> sampler2D)
    (calls : list Call) (fragCoord : vec2) :
  DepthSensing.fragmentColors sampleImage calls fragCoord
  = DepthSensing.fragmentColors sampleImage
      (filter (fun c => isDraw c = true) calls) fragCoord.
Proof.
  unfold DepthSensing.fragmentColors.
  induction calls as [| c rest IH]; [reflexivity |].
  rewrite filter_cons. destruct (decide (isDraw c = true)) as [Hdraw | Hother].
  - destruct c; try discriminate. cbn [omap list_omap]. rewrite IH. reflexivity.
  - destruct c; try (exact IH). contradiction Hother. reflexivity.
Qed.

(** X9.  On the depth-sensing page, as long as the depth scale uniform is
    zero (as it is until a first depth snapshot arrives), a frame whose
    views have no depth information paints every fragment of every draw
    opaque black. *)
Theorem depthSensing_black_until_first_snapshot
    (sampleImage : Z -> Z -> list Z -> sampler2D)
    (frame : XRFrame) (views : list XRView) (s : State) (fragCoord : vec2) :
  getViewerPose frame = Some views ->
  Forall (fun view => depthInformation view = None) views ->
  uDepthScale (glProgram s) == 0 ->
  length (DepthSensing.fragmentColors sampleImage
            (callsOf (DepthSensing.onDrawFrame frame) s) fragCoord) = length views
  /\ Forall (fun color => vec4_eq color (Vec4 0 0 0 1))
            (DepthSensing.fragmentColors sampleImage
               (callsOf (DepthSensing.onDrawFrame frame) s) fragCoord).
Proof.
  intros Hpose Hnone Hscale.
  destruct (depthSensing_without_depth_draws_stale frame views s Hpose Hnone)
    as [_ Hdraws].
  rewrite fragmentColors_of_draws, Hdraws.
  unfold DepthSensing.fragmentColors.
  generalize (length views) as n. intros n.
  induction n as [| n [IHlen IHall]]; [split; [reflexivity | constructor] |].
  cbn [replicate omap list_omap length]. split; [rewrite IHlen; reflexivity |].
  constructor; [| exact IHall].
  unfold main. cbn [DepthSensing.uniformsOfDraw DepthShader.depthScale].
  match goal with
  | |- vec4_eq (Vec4 (mappedValue ?d) _ _ _) _ =>
      assert (Hd : d == 0)
        by (unfold depthGetMeters; rewrite Hscale; ring);
      assert (Hmapped : mappedValue d == 0)
  end.
  { rewrite mappedValue_inside by (rewrite Hd; discriminate).
    rewrite Hd. reflexivity. }
  repeat split; cbn [r g b a]; first [exact Hmapped | reflexivity].
Qed.

Lemma depthSensing_black_until_first_snapshot_witness :
  Forall (fun color => vec4_eq color (Vec4 0 0 0 1))
         (DepthSensing.fragmentColors sampleFirstTexel
            (callsOf (DepthSensing.onDrawFrame
                        (MkFrame (Some [MkView identity4 identity4
                                          (MkViewport 0 0 640 480) None]) []))
                     DepthSensing.afterMain) (3 # 2, 5 # 2)).
Proof.
  apply (depthSensing_black_until_first_snapshot sampleFirstTexel
           (MkFrame (Some [MkView identity4 identity4 (MkViewport 0 0 640 480) None]) [])
           [MkView identity4 identity4 (MkViewport 0 0 640 480) None]
           DepthSensing.afterMain (3 # 2, 5 # 2)).
  - reflexivity.
  - repeat constructor.
  - reflexivity.
Defined.

(** The loop over the scene objects renders them in order and changes
    nothing. *)
Lemma render_loop_run (refs : list nat) (s : State) :
  forEach refs (fun sceneObject => call (RenderSceneObject sceneObject)) s
  = (tt, s, RenderSceneObject <$> refs).
Proof.
  induction refs as [| ref rest IH]; [reflexivity |].
  cbn [forEach]. rewrite run_bind. cbv beta.
  rewrite stateAfter_call, callsOf_call.
  unfold stateAfter, callsOf. rewrite IH. reflexivity.
Qed.

Lemma stateAfter_render_loop (refs : list nat) (s : State) :
  stateAfter (forEach refs (fun sceneObject => call (RenderSceneObject sceneObject))) s = s.
Proof. unfold stateAfter. rewrite render_loop_run. reflexivity. Qed.

Lemma callsOf_render_loop (refs : list nat) (s : State) :
  callsOf (forEach refs (fun sceneObject => call (RenderSceneObject sceneObject))) s
  = RenderSceneObject <$> refs.
Proof. unfold callsOf. rewrite render_loop_run. reflexivity. Qed.

Lemma checkForHitResults_keeps_program (frame : XRFrame) (s : State) :
  glProgram (stateAfter (checkForHitResults frame) s) = glProgram s.
Proof.
  unfold checkForHitResults. rewrite stateAfter_bind. cbn [get fst].
  change (stateAfter get s) with s.
  destruct (arHitTestSource s) as [source |]; [| reflexivity].
  destruct (getHitTestResults frame) as [| [hit |] rest]; reflexivity.
Qed.

(** X10.  After a frame of the depth-sensing page (texture unit 0) or of
    the depth-occlusion page (texture unit 1) whose last view has depth
    information, the program holds the unit, that snapshot's transform and
    scale, and that view's viewport size as resolution, whatever it held
    before.  It holds the snapshot's image when [texImage2D] accepted the
    buffer; when it did not, the uniforms are written all the same and the
    texture keeps the image it had (for a single view: the image of the
    frames before). *)
Theorem depth_snapshot_reaches_program
    (onDrawFrame : XRFrame -> Prog unit) (unit : Z)
    (frame : XRFrame) (views : list XRView) (view : XRView)
    (depthInfo : XRDepthInformation) (s : State) :
  (onDrawFrame = DepthSensing.onDrawFrame /\ unit = 0%Z)
  \/ (onDrawFrame = DepthOcclusion.onDrawFrame /\ unit = 1%Z) ->
  getViewerPose frame = Some (views ++ [view]) ->
  depthInformation view = Some depthInfo ->
  exists previous,
    glProgram (stateAfter (onDrawFrame frame) s)
    = MkGLProgram unit (normDepthBufferFromNormView depthInfo)
        (rawValueToMeters depthInfo)
        (vp_width (viewport view), vp_height (viewport view))
        (if texImageAccepted (width depthInfo) (height depthInfo) (data depthInfo)
         then Some (width depthInfo, height depthInfo,
                    unpackImage (width depthInfo) (height depthInfo) (data depthInfo))
         else depthTextureImage previous)
    /\ (views = [] -> previous = glProgram s).
Proof.
  intros [[-> ->] | [-> ->]] Hpose Hinfo.
  - unfold DepthSensing.onDrawFrame. rewrite Hpose.
    unfold DepthSensing.doTheRendering.
    rewrite !stateAfter_bind. cbv beta.
    rewrite (stateAfter_gl_inert (BindFramebuffer NullFramebuffer)) by reflexivity.
    rewrite (stateAfter_gl_inert UseProgramNull) by reflexivity.
    rewrite stateAfter_forEach_snoc.
    match goal with |- context [stateAfter _ (stateAfter (forEach views ?body) ?s0)] =>
      exists (glProgram (stateAfter (forEach views body) s0));
      destruct (depthSensing_turn_with_depth view depthInfo
                  (stateAfter (forEach views body) s0) Hinfo) as [Hstate _]
    end.
    cbn zeta in Hstate. rewrite Hstate.
    split; [reflexivity | intros ->; reflexivity].
  - unfold DepthOcclusion.onDrawFrame. rewrite Hpose.
    unfold DepthOcclusion.doTheRendering.
    rewrite !stateAfter_bind. cbv beta.
    rewrite (stateAfter_gl_inert (BindFramebuffer NullFramebuffer)) by reflexivity.
    rewrite (stateAfter_gl_inert UseProgramNull) by reflexivity.
    rewrite stateAfter_forEach_snoc.
    rewrite Hinfo.
    rewrite !stateAfter_bind. cbv beta.
    rewrite stateAfter_render_loop.
    match goal with |- context [stateAfter (forEach views ?body) ?s0] =>
      exists (glProgram (stateAfter (forEach views body) s0))
    end.
    split; [reflexivity |].
    intros ->. cbn [forEach].
    change (stateAfter (mret tt) ?x) with x.
    rewrite !stateAfter_call.
    rewrite (stateAfter_gl_inert Clear) by reflexivity.
    rewrite (stateAfter_gl_inert (ClearColor 0 0 0 0)) by reflexivity.
    rewrite (stateAfter_gl_inert (BindFramebuffer LayerFramebuffer)) by reflexivity.
    apply checkForHitResults_keeps_program.
Qed.

Lemma depth_snapshot_reaches_program_witness :
  exists previous,
    glProgram (stateAfter (DepthOcclusion.onDrawFrame (MkFrame (Some [cameraOdd]) []))
                 (stateAfter (DepthOcclusion.onDrawFrame frameWithHit) started))
    = MkGLProgram 1 identity4 (1 # 250) (640, 480)
        (if texImageAccepted 3 2 (data twoMetersOdd)
         then Some (3%Z, 2%Z, unpackImage 3 2 (data twoMetersOdd))
         else depthTextureImage previous)
    /\ ([] = @nil XRView ->
        previous = glProgram (stateAfter (DepthOcclusion.onDrawFrame frameWithHit) started)).
Proof.
  apply (depth_snapshot_reaches_program DepthOcclusion.onDrawFrame 1
           (MkFrame (Some [cameraOdd]) []) [] cameraOdd twoMetersOdd
           (stateAfter (DepthOcclusion.onDrawFrame frameWithHit) started)).
  - right. split; reflexivity.
  - reflexivity.
  - reflexivity.
Defined.

(** The shape all four rendering blocks share: four opening calls, the
    loop over the views, two closing calls. *)
Lemma bracketed_block (loop : Prog unit) (s : State) :
  callsSatisfy (fun c => isFrameBracket c = false) loop ->
  exists middle,
    callsOf (gl (BindFramebuffer LayerFramebuffer) ;; gl (ClearColor 0 0 0 0) ;;
             gl Clear ;; call UseShader ;; loop ;;
             gl UseProgramNull ;; gl (BindFramebuffer NullFramebuffer)) s
    = [BindFramebuffer LayerFramebuffer; ClearColor 0 0 0 0; Clear; UseShader]
      ++ middle ++ [UseProgramNull; BindFramebuffer NullFramebuffer]
    /\ Forall (fun c => isFrameBracket c = false) middle.
Proof.
  intros Hloop. rewrite !callsOf_bind. cbv beta.
  rewrite !callsOf_gl, callsOf_call.
  eexists. split; [reflexivity | apply Hloop].
Qed.

Lemma checkForHitResults_no_bracket (frame : XRFrame) :
  callsSatisfy (fun c => isFrameBracket c = false) (checkForHitResults frame).
Proof. unfold checkForHitResults. calls_satisfy; reflexivity. Qed.

(** X11.  On all four pages a frame with a viewer pose binds the layer's
    framebuffer, sets the clear colour to transparent black and clears
    once before anything is drawn, and ends by releasing the program and
    the framebuffer; no other call of the frame touches them. *)
Theorem posed_frame_is_bracketed
    (onDrawFrame : XRFrame -> Prog unit) (frame : XRFrame)
    (views : list XRView) (s : State) :
  onDrawFrame = Intro.onDrawFrame \/ onDrawFrame = DepthSensing.onDrawFrame
    \/ onDrawFrame = HitTest.onDrawFrame \/ onDrawFrame = DepthOcclusion.onDrawFrame ->
  getViewerPose frame = Some views ->
  exists before middle,
    callsOf (onDrawFrame frame) s
    = before
      ++ [BindFramebuffer LayerFramebuffer; ClearColor 0 0 0 0; Clear; UseShader]
      ++ middle ++ [UseProgramNull; BindFramebuffer NullFramebuffer]
    /\ Forall (fun c => isFrameBracket c = false) before
    /\ Forall (fun c => isFrameBracket c = false) middle.
Proof.
  intros Hpage Hpose.
  assert (Hblock : forall rendering : list XRView -> Prog unit,
             rendering = Intro.doTheRendering \/ rendering = DepthSensing.doTheRendering
             \/ rendering = HitTest.doTheRendering
             \/ rendering = DepthOcclusion.doTheRendering ->
             forall s0, exists middle,
               callsOf (rendering views) s0
               = [BindFramebuffer LayerFramebuffer; ClearColor 0 0 0 0; Clear; UseShader]
                 ++ middle ++ [UseProgramNull; BindFramebuffer NullFramebuffer]
               /\ Forall (fun c => isFrameBracket c = false) middle).
  { intros rendering Hr s0.
    destruct Hr as [-> | [-> | [-> | ->]]]; apply bracketed_block;
      calls_satisfy; reflexivity. }
  destruct Hpage as [-> | [-> | [-> | ->]]].
  - unfold Intro.onDrawFrame. rewrite Hpose, !callsOf_bind. cbv beta.
    destruct (Hblock Intro.doTheRendering (or_introl eq_refl)
                (stateAfter (call FrameGetViewerPose)
                   (stateAfter (call RequestAnimationFrame) s)))
      as (middle & -> & Hmiddle).
    exists [RequestAnimationFrame; FrameGetViewerPose], middle.
    split; [reflexivity | split; [repeat constructor | exact Hmiddle]].
  - unfold DepthSensing.onDrawFrame. rewrite Hpose, !callsOf_bind. cbv beta.
    destruct (Hblock DepthSensing.doTheRendering (or_intror (or_introl eq_refl))
                (stateAfter (call FrameGetViewerPose)
                   (stateAfter (call RequestAnimationFrame) s)))
      as (middle & -> & Hmiddle).
    exists [RequestAnimationFrame; FrameGetViewerPose], middle.
    split; [reflexivity | split; [repeat constructor | exact Hmiddle]].
  - unfold HitTest.onDrawFrame. rewrite Hpose, !callsOf_bind. cbv beta.
    match goal with |- context [callsOf (HitTest.doTheRendering views) ?s0] =>
      destruct (Hblock HitTest.doTheRendering
                  (or_intror (or_intror (or_introl eq_refl))) s0)
        as (middle & -> & Hmiddle)
    end.
    exists ([RequestAnimationFrame; FrameGetViewerPose]
            ++ callsOf (checkForHitResults frame) s), middle.
    rewrite !callsOf_call, !stateAfter_call.
    split; [reflexivity | split; [| exact Hmiddle]].
    repeat constructor. apply checkForHitResults_no_bracket.
  - unfold DepthOcclusion.onDrawFrame. rewrite Hpose, !callsOf_bind. cbv beta.
    match goal with |- context [callsOf (DepthOcclusion.doTheRendering views) ?s0] =>
      destruct (Hblock DepthOcclusion.doTheRendering
                  (or_intror (or_intror (or_intror eq_refl))) s0)
        as (middle & -> & Hmiddle)
    end.
    exists ([RequestAnimationFrame; FrameGetViewerPose]
            ++ callsOf (checkForHitResults frame) s), middle.
    rewrite !callsOf_call, !stateAfter_call.
    split; [reflexivity | split; [| exact Hmiddle]].
    repeat constructor. apply checkForHitResults_no_bracket.
Qed.

Lemma posed_frame_is_bracketed_witness :
  exists before middle,
    callsOf (DepthOcclusion.onDrawFrame frameWithHit) started
    = before
      ++ [BindFramebuffer LayerFramebuffer; ClearColor 0 0 0 0; Clear; UseShader]
      ++ middle ++ [UseProgramNull; BindFramebuffer NullFramebuffer]
    /\ Forall (fun c => isFrameBracket c = false) before
    /\ Forall (fun c => isFrameBracket c = false) middle.
Proof.
  apply (posed_frame_is_bracketed DepthOcclusion.onDrawFrame frameWithHit [camera] started).
  - right; right; right; reflexivity.
  - reflexivity.
Defined.

Lemma filter_render_calls (refs : list nat) :
  filter (fun c => isRender c = true) (RenderSceneObject <$> refs)
  = RenderSceneObject <$> refs.
Proof.
  induction refs as [| ref rest IH]; [reflexivity |].
  cbn [fmap list_fmap]. rewrite filter_cons.
  destruct (decide _) as [_ | Hno]; [| contradiction Hno; reflexivity].
  f_equal. exact IH.
Qed.

(** The rendering block of a page that draws the scene, given what one
    turn of its loop over the views does. *)
Lemma scene_block_render_order (views : list XRView) (body : XRView -> Prog unit) (s : State) :
  (forall view s0, filter (fun c => isRender c = true) (callsOf (body view) s0)
                   = RenderSceneObject <$> scene s0) ->
  (forall view, rendersOnly (body view)) ->
  filter (fun c => isRender c = true)
    (callsOf (gl (BindFramebuffer LayerFramebuffer) ;; gl (ClearColor 0 0 0 0) ;;
              gl Clear ;; call UseShader ;; forEach views body ;;
              gl UseProgramNull ;; gl (BindFramebuffer NullFramebuffer)) s)
  = concat (replicate (length views) (RenderSceneObject <$> scene s)).
Proof.
  intros Hturn Hkeep.
  rewrite !callsOf_bind. cbv beta.
  rewrite !callsOf_gl, callsOf_call, !list.filter_app.
  rewrite (forEach_filter (fun c => isRender c = true) views body
             (fun s0 => RenderSceneObject <$> scene s0) Hturn).
  - rewrite !filter_cons, !filter_nil.
    repeat case_decide; try discriminate.
    cbn [app]. rewrite app_nil_r. reflexivity.
  - intros view s0. destruct (Hkeep view s0) as [(_ & Hscene & _) _].
    rewrite Hscene. reflexivity.
Qed.

(** A part of a turn that only renders and makes no render call can be
    skipped when looking for the render calls. *)
Lemma filter_render_skip {A B} (m : Prog A) (f : A -> Prog B) (s : State) :
  callsSatisfy (fun c => isRender c = false) m ->
  filter (fun c => isRender c = true) (callsOf (m ≫= f) s)
  = filter (fun c => isRender c = true)
           (callsOf (f (fst (fst (m s)))) (stateAfter m s)).
Proof.
  intros Hm. rewrite callsOf_bind, list.filter_app.
  assert (Hnone : filter (fun c => isRender c = true) (callsOf m s) = []).
  { specialize (Hm s). induction Hm as [| c rest Hc _ IH]; [reflexivity |].
    rewrite filter_cons. destruct (decide _) as [Hyes | _]; [congruence | exact IH]. }
  rewrite Hnone. reflexivity.
Qed.

Lemma scene_after_rendersOnly {A} (m : Prog A) (s : State) :
  rendersOnly m -> scene (stateAfter m s) = scene s.
Proof. intros Hm. destruct (Hm s) as [(_ & Hscene & _) _]. exact Hscene. Qed.

(** The tail every scene-drawing turn ends with. *)
Lemma scene_tail_renders (view : XRView) (s : State) :
  filter (fun c => isRender c = true)
    (callsOf (call UseLights ;;
              gl (UniformMatrix4fv UProjection (projectionMatrix view)) ;;
              gl (UniformMatrix4fv UView (inverseMatrix view)) ;;
              s0 ← get ;
              forEach (scene s0)
                (fun sceneObject => call (RenderSceneObject sceneObject))) s)
  = RenderSceneObject <$> scene s.
Proof.
  rewrite (filter_render_skip (call UseLights)) by (apply callsSatisfy_call; reflexivity).
  cbv beta.
  rewrite (filter_render_skip (gl _)) by (apply callsSatisfy_gl; reflexivity).
  cbv beta.
  rewrite (filter_render_skip (gl _)) by (apply callsSatisfy_gl; reflexivity).
  cbv beta.
  rewrite (filter_render_skip get) by (apply callsSatisfy_get).
  cbv beta.
  rewrite callsOf_render_loop, filter_render_calls.
  reflexivity.
Qed.

(** X12.  On the three pages that draw a scene, a frame with a viewer pose
    renders, for each view in turn, every object of the scene once and in
    the order in which the objects were added. *)
Theorem scene_rendered_in_insertion_order
    (rendering : list XRView -> Prog unit) (views : list XRView) (s : State) :
  rendering = Intro.doTheRendering \/ rendering = HitTest.doTheRendering
    \/ rendering = DepthOcclusion.doTheRendering ->
  filter (fun c => isRender c = true) (callsOf (rendering views) s)
  = concat (replicate (length views) (RenderSceneObject <$> scene s)).
Proof.
  intros [-> | [-> | ->]].
  - unfold Intro.doTheRendering. apply scene_block_render_order.
    + intros view s0.
      rewrite (filter_render_skip (call _)) by (apply callsSatisfy_call; reflexivity).
      cbv beta.
      rewrite (filter_render_skip (call _)) by (apply callsSatisfy_call; reflexivity).
      cbv beta. apply scene_tail_renders.
    + intros view. renders.
  - unfold HitTest.doTheRendering. apply scene_block_render_order.
    + intros view s0.
      rewrite (filter_render_skip (call _)) by (apply callsSatisfy_call; reflexivity).
      cbv beta.
      rewrite (filter_render_skip (call _)) by (apply callsSatisfy_call; reflexivity).
      cbv beta. apply scene_tail_renders.
    + intros view. renders.
  - unfold DepthOcclusion.doTheRendering. apply scene_block_render_order.
    + intros view s0.
      rewrite (filter_render_skip (call _)) by (apply callsSatisfy_call; reflexivity).
      cbv beta.
      rewrite (filter_render_skip (call _)) by (apply callsSatisfy_call; reflexivity).
      cbv beta.
      rewrite (filter_render_skip (call _)) by (apply callsSatisfy_call; reflexivity).
      cbv beta.
      rewrite filter_render_skip by (calls_satisfy; reflexivity).
      cbv beta. rewrite scene_tail_renders.
      rewrite !stateAfter_call.
      apply f_equal, scene_after_rendersOnly. renders.
    + intros view. renders.
Qed.

Lemma scene_rendered_in_insertion_order_witness :
  filter (fun c => isRender c = true)
         (callsOf (DepthOcclusion.doTheRendering [camera; camera])
            (stateAfter (Placement.onSelect) started))
  = [RenderSceneObject 0; RenderSceneObject 1; RenderSceneObject 0; RenderSceneObject 1].
Proof.
  apply (scene_rendered_in_insertion_order DepthOcclusion.doTheRendering
           [camera; camera] (stateAfter (Placement.onSelect) started)).
  right; right; reflexivity.
Defined.

(** X13.  The unit made active for the depth upload is the unit written to
    the depth sampler: every frame of the depth-sensing page names unit 0
    in both places, every frame of the depth-occlusion page unit 1, and
    neither page ever names another unit. *)
Theorem depth_texture_unit_is_consistent
    (onDrawFrame : XRFrame -> Prog unit) (unit : Z) (frame : XRFrame) (s : State) :
  (onDrawFrame = DepthSensing.onDrawFrame /\ unit = 0%Z)
  \/ (onDrawFrame = DepthOcclusion.onDrawFrame /\ unit = 1%Z) ->
  Forall (usesDepthUnit unit) (callsOf (onDrawFrame frame) s).
Proof.
  intros [[-> ->] | [-> ->]]; revert s.
  - change (callsSatisfy (usesDepthUnit 0) (DepthSensing.onDrawFrame frame)).
    unfold DepthSensing.onDrawFrame, DepthSensing.doTheRendering.
    calls_satisfy; first [exact I | reflexivity].
  - change (callsSatisfy (usesDepthUnit 1) (DepthOcclusion.onDrawFrame frame)).
    unfold DepthOcclusion.onDrawFrame, DepthOcclusion.doTheRendering, checkForHitResults.
    calls_satisfy; first [exact I | reflexivity].
Qed.

Lemma depth_texture_unit_is_consistent_witness :
  Forall (usesDepthUnit 1) (callsOf (DepthOcclusion.onDrawFrame frameWithHit) started).
Proof.
  apply (depth_texture_unit_is_consistent DepthOcclusion.onDrawFrame 1 frameWithHit started).
  right. split; reflexivity.
Defined.

End RenderingExtras.

Section TrackedPageExtras.
Import GLSL WebXR Framework Runtime Placement Observations MoreObservations Samples.

(** The two pages with a reticle have the tracker's shape. *)
Lemma tracker_pages_shape (onDrawFrame : XRFrame -> Prog unit) :
  onDrawFrame = HitTest.onDrawFrame \/ onDrawFrame = DepthOcclusion.onDrawFrame ->
  exists rendering,
    (forall frame, onDrawFrame frame =
       (call RequestAnimationFrame ;; call FrameGetViewerPose ;;
        match getViewerPose frame with
        | Some views => checkForHitResults frame ;; rendering views
        | None => mret tt
        end))
    /\ (forall views, rendersOnly (rendering views)).
Proof.
  intros [-> | ->]; eexists; split.
  - exact hitTest_onDrawFrame_unfold.
  - exact hitTest_rendering_rendersOnly.
  - exact depthOcclusion_onDrawFrame_unfold.
  - exact depthOcclusion_rendering_rendersOnly.
Qed.

Lemma observesHit_true (s : State) (frame : XRFrame) :
  observesHit s (Frame frame) = true ->
  exists views source hit rest,
    getViewerPose frame = Some views /\ arHitTestSource s = Some source
    /\ getHitTestResults frame = Some hit :: rest.
Proof.
  cbn [observesHit]. intros Hobs.
  destruct (getViewerPose frame) as [views |]; [| discriminate].
  destruct (arHitTestSource s) as [source |]; [| discriminate].
  destruct (getHitTestResults frame) as [| [hit |] rest]; try discriminate.
  eauto 10.
Qed.

Variable onDrawFrame : XRFrame -> Prog unit.
Variable rendering : list XRView -> Prog unit.

Hypothesis onDrawFrame_unfold : forall frame,
  onDrawFrame frame =
  (call RequestAnimationFrame ;; call FrameGetViewerPose ;;
   match getViewerPose frame with
   | Some views => checkForHitResults frame ;; rendering views
   | None => mret tt
   end).

Hypothesis rendering_rendersOnly : forall views, rendersOnly (rendering views).

(** A frame on which the tracker sees a hit: the whole effect on the
    objects, and the calls. *)
Lemma tracked_frame_hit_effect frame s views source hit rest :
  getViewerPose frame = Some views ->
  arHitTestSource s = Some source ->
  getHitTestResults frame = Some hit :: rest ->
  let s' := stateAfter (onDrawFrame frame) s in
  heap s' = heapWithReticleAt hit s
  /\ scene s' = scene s /\ reticleSceneObj s' = reticleSceneObj s
  /\ arHitTestSource s' = arHitTestSource s /\ selectListener s' = selectListener s
  /\ callsOf (onDrawFrame frame) s
     = [RequestAnimationFrame; FrameGetViewerPose; FrameGetHitTestResults;
        HitResultGetPose; SetPosition (reticleSceneObj s) (position hit);
        SetRotation (reticleSceneObj s) (orientation hit)]
       ++ callsOf (rendering views) (setHeap (heapWithReticleAt hit s) s).
Proof.
  intros Hpose Hsrc Hres. cbn zeta.
  rewrite onDrawFrame_unfold, Hpose.
  destruct (onDrawFrame_shape (rendering views) frame s) as [Hstate Hcalls].
  cbn zeta in Hstate, Hcalls. rewrite Hstate, Hcalls. clear Hstate Hcalls.
  pose proof (checkForHitResults_hit frame s source hit rest Hsrc Hres) as Hrun.
  assert (Hs1 : stateAfter (checkForHitResults frame) s
                = setHeap (heapWithReticleAt hit s) s)
    by (unfold stateAfter; rewrite Hrun; reflexivity).
  assert (Hc1 : callsOf (checkForHitResults frame) s
                = [FrameGetHitTestResults; HitResultGetPose;
                   SetPosition (reticleSceneObj s) (position hit);
                   SetRotation (reticleSceneObj s) (orientation hit)])
    by (unfold callsOf; rewrite Hrun; reflexivity).
  rewrite Hs1, Hc1.
  destruct (rendering_rendersOnly views (setHeap (heapWithReticleAt hit s) s))
    as [(Hheap & Hscene & Href & Hsource & Hlisten) _].
  repeat split; try assumption.
Qed.

(** What any single event does to the objects of a session. *)
Lemma dispatch_grows (e : Event) (s : State) :
  grownFrom s (stateAfter (dispatch onDrawFrame e) s).
Proof.
  destruct e as [| frame].
  - unfold dispatch. rewrite stateAfter_bind. cbn [get fst].
    change (stateAfter get s) with s.
    destruct (selectListener s) eqn:Hlisten.
    + destruct (heap s !! reticleSceneObj s) as [reticle |] eqn:Hret.
      * unfold stateAfter. rewrite (onSelect_run s reticle Hret). cbn [fst snd].
        repeat split; cbn [setScene setHeap heap scene reticleSceneObj
                           arHitTestSource selectListener].
        -- eexists; reflexivity.
        -- rewrite length_app. lia.
        -- intros ref o _ Hlook. rewrite lookup_app_l; [exact Hlook |].
           eapply lookup_lt_Some; exact Hlook.
      * unfold stateAfter, onSelect, mbind, prog_bind, get. cbv beta iota zeta.
        rewrite Hret. cbn [fst snd].
        repeat split; try (exists []; rewrite app_nil_r; reflexivity); auto.
    + cbn [stateAfter mret prog_ret fst snd].
      repeat split; try (exists []; rewrite app_nil_r; reflexivity); auto.
  - cbn [dispatch].
    destruct (observesHit s (Frame frame)) eqn:Hobs.
    + destruct (observesHit_true s frame Hobs)
        as (views & source & hit & rest & Hpose & Hsrc & Hres).
      destruct (tracked_frame_hit_effect frame s views source hit rest Hpose Hsrc Hres)
        as (Hheap & Hscene & Href & Hsource & Hlisten & _).
      repeat split; try assumption.
      * exists []. rewrite app_nil_r. exact Hscene.
      * rewrite Hheap. unfold heapWithReticleAt. rewrite !length_alter. lia.
      * intros ref o Hne Hlook. rewrite Hheap. unfold heapWithReticleAt.
        rewrite !list_lookup_alter_ne by congruence. exact Hlook.
    + destruct (tracked_frame_without_hit onDrawFrame rendering onDrawFrame_unfold
                  rendering_rendersOnly frame s Hobs)
        as [(Hheap & Hscene & Href & Hsource & Hlisten) _].
      repeat split; try assumption.
      * exists []. rewrite app_nil_r. exact Hscene.
      * rewrite Hheap. lia.
      * intros ref o _ Hlook. rewrite Hheap. exact Hlook.
Qed.

Lemma grownFrom_refl (s : State) : grownFrom s s.
Proof.
  repeat split; auto. exists []. rewrite app_nil_r. reflexivity.
Qed.

Lemma grownFrom_trans (s1 s2 s3 : State) :
  grownFrom s1 s2 -> grownFrom s2 s3 -> grownFrom s1 s3.
Proof.
  intros (R1 & A1 & L1 & [m1 S1] & N1 & K1) (R2 & A2 & L2 & [m2 S2] & N2 & K2).
  repeat split; try congruence.
  - exists (m1 ++ m2). rewrite S2, S1, app_assoc. reflexivity.
  - lia.
  - intros ref o Hne Hlook. apply K2; [congruence |]. apply K1; assumption.
Qed.

Lemma run_grows (events : list Event) (s : State) :
  grownFrom s (stateAfter (run onDrawFrame events) s).
Proof.
  revert s. induction events as [| e rest IH]; intros s.
  - apply grownFrom_refl.
  - cbn [run forEach]. rewrite stateAfter_bind. cbv beta.
    eapply grownFrom_trans; [apply dispatch_grows | apply IH].
Qed.

End TrackedPageExtras.

Section SessionExtras.
Import GLSL WebXR Framework Runtime Placement Observations MoreObservations Samples.

(** X14.  Over any sequence of select and frame events, on both pages with
    a reticle: the reticle reference, the hit-test source and the select
    registration stay as they are, the scene only grows at its end, and
    every object other than the reticle keeps the state it was created
    with. *)
Theorem session_keeps_placed_objects
    (onDrawFrame : XRFrame -> Prog unit) (events : list Event) (s : State) :
  onDrawFrame = HitTest.onDrawFrame \/ onDrawFrame = DepthOcclusion.onDrawFrame ->
  let s' := stateAfter (run onDrawFrame events) s in
  reticleSceneObj s' = reticleSceneObj s
  /\ arHitTestSource s' = arHitTestSource s
  /\ selectListener s' = selectListener s
  /\ (exists added, scene s' = scene s ++ added)
  /\ (forall ref o, ref <> reticleSceneObj s ->
        heap s !! ref = Some o -> heap s' !! ref = Some o).
Proof.
  intros Hpage. cbn zeta.
  destruct (tracker_pages_shape onDrawFrame Hpage) as (rendering & Hunfold & Hrender).
  destruct (run_grows onDrawFrame rendering Hunfold Hrender events s)
    as (Href & Hsource & Hlisten & Hscene & _ & Hkeep).
  repeat split; assumption.
Qed.

Lemma session_keeps_placed_objects_witness :
  heap (stateAfter (run DepthOcclusion.onDrawFrame
                      [Frame frameWithHit; Select; Frame frameWithoutHit])
                   (stateAfter (run DepthOcclusion.onDrawFrame [Select]) started))
    !! 1%nat
  = Some (placedFrom theReticle).
Proof.
  apply (session_keeps_placed_objects DepthOcclusion.onDrawFrame
           [Frame frameWithHit; Select; Frame frameWithoutHit]
           (stateAfter (run DepthOcclusion.onDrawFrame [Select]) started)).
  - right; reflexivity.
  - discriminate.
  - reflexivity.
Defined.

(** The reticle reference stays valid along a session. *)
Lemma dispatch_keeps_reticle onDrawFrame rendering (e : Event) (s : State) :
  (forall frame, onDrawFrame frame =
     (call RequestAnimationFrame ;; call FrameGetViewerPose ;;
      match getViewerPose frame with
      | Some views => checkForHitResults frame ;; rendering views
      | None => mret tt
      end)) ->
  (forall views, rendersOnly (rendering views)) ->
  is_Some (heap s !! reticleSceneObj s) ->
  is_Some (heap (stateAfter (dispatch onDrawFrame e) s)
             !! reticleSceneObj (stateAfter (dispatch onDrawFrame e) s)).
Proof.
  intros Hunfold Hrender Hret.
  destruct (dispatch_grows onDrawFrame rendering Hunfold Hrender e s)
    as (Href & _ & _ & _ & Hlen & _).
  rewrite Href. apply lookup_lt_is_Some. apply lookup_lt_is_Some in Hret. lia.
Qed.

(** Counting: every select event that reaches the handler adds exactly one
    object, with the next free reference; frames add none. *)
Lemma run_counts_selects onDrawFrame rendering (events : list Event) (s : State) :
  (forall frame, onDrawFrame frame =
     (call RequestAnimationFrame ;; call FrameGetViewerPose ;;
      match getViewerPose frame with
      | Some views => checkForHitResults frame ;; rendering views
      | None => mret tt
      end)) ->
  (forall views, rendersOnly (rendering views)) ->
  selectListener s = true ->
  is_Some (heap s !! reticleSceneObj s) ->
  let s' := stateAfter (run onDrawFrame events) s in
  length (heap s') = (length (heap s) + countSelects events)%nat
  /\ scene s' = scene s ++ seq (length (heap s)) (countSelects events).
Proof.
  intros Hunfold Hrender. revert s.
  induction events as [| e rest IH]; intros s Hlisten Hret; cbn zeta.
  - cbn [countSelects seq]. rewrite Nat.add_0_r, app_nil_r. split; reflexivity.
  - cbn [run forEach]. rewrite stateAfter_bind. cbv beta.
    pose proof (dispatch_keeps_reticle onDrawFrame rendering e s Hunfold Hrender Hret)
      as Hret1.
    pose proof (dispatch_grows onDrawFrame rendering Hunfold Hrender e s)
      as (_ & _ & Hlisten1 & _).
    set (s1 := stateAfter (dispatch onDrawFrame e) s) in *.
    destruct (IH s1) as [IHlen IHscene]; [congruence | exact Hret1 |].
    change (forEach rest (dispatch onDrawFrame)) with (run onDrawFrame rest).
    rewrite IHlen, IHscene.
    destruct e as [| frame]; cbn [countSelects].
    + destruct Hret as [reticle Hret].
      assert (Hs1 : s1 = setScene (scene s ++ [length (heap s)])
                               (setHeap (heap s ++ [placedFrom reticle]) s))
        by (subst s1; apply dispatch_select_listening; assumption).
      rewrite Hs1. cbn [setScene setHeap heap scene].
      rewrite length_app. cbn [length seq].
      replace (length (heap s) + 1)%nat with (S (length (heap s))) by lia.
      rewrite <- app_assoc. split; [lia | reflexivity].
    + assert (Hsame : length (heap s1) = length (heap s) /\ scene s1 = scene s).
      { subst s1. cbn [dispatch].
        destruct (observesHit s (Frame frame)) eqn:Hobs.
        - destruct (observesHit_true s frame Hobs)
            as (views & source & hit & rest' & Hpose & Hsrc & Hres).
          destruct (tracked_frame_hit_effect onDrawFrame rendering Hunfold Hrender
                      frame s views source hit rest' Hpose Hsrc Hres)
            as (Hheap & Hscene & _).
          split; [| exact Hscene].
          rewrite Hheap. unfold heapWithReticleAt. rewrite !length_alter. reflexivity.
        - destruct (tracked_frame_without_hit onDrawFrame rendering Hunfold Hrender
                      frame s Hobs) as [(Hheap & Hscene & _) _].
          split; [rewrite Hheap; reflexivity | exact Hscene]. }
      destruct Hsame as [Hlen Hscene]. rewrite Hlen, Hscene. split; reflexivity.
Qed.

(** X15.  On both pages with a reticle, once the select handler is
    registered every select event adds exactly one object, under the next
    free reference, and frames add none: after any sequence of events the
    scene has grown by the references of the select events, in order. *)
Theorem every_select_adds_one_object
    (onDrawFrame : XRFrame -> Prog unit) (events : list Event) (s : State) :
  onDrawFrame = HitTest.onDrawFrame \/ onDrawFrame = DepthOcclusion.onDrawFrame ->
  selectListener s = true ->
  is_Some (heap s !! reticleSceneObj s) ->
  let s' := stateAfter (run onDrawFrame events) s in
  length (heap s') = (length (heap s) + countSelects events)%nat
  /\ scene s' = scene s ++ seq (length (heap s)) (countSelects events).
Proof.
  intros Hpage Hlisten Hret.
  destruct (tracker_pages_shape onDrawFrame Hpage) as (rendering & Hunfold & Hrender).
  exact (run_counts_selects onDrawFrame rendering events s Hunfold Hrender Hlisten Hret).
Qed.

Lemma every_select_adds_one_object_witness :
  scene (stateAfter (run HitTest.onDrawFrame
                       [Select; Frame frameWithHit; Select; Frame frameWithoutPose; Select])
                    started)
  = [0; 1; 2; 3]%nat.
Proof.
  apply (every_select_adds_one_object HitTest.onDrawFrame
           [Select; Frame frameWithHit; Select; Frame frameWithoutPose; Select] started).
  - left; reflexivity.
  - reflexivity.
  - eexists; reflexivity.
Defined.

(** X16.  When the session offers no hit-test source, [startARSession]
    registers no select handler, and from then on no event changes any
    object: select events are not delivered and frames never move the
    reticle. *)
Theorem without_hit_test_source_nothing_moves
    (onDrawFrame : XRFrame -> Prog unit) (host : Platform)
    (events : list Event) (s : State) :
  onDrawFrame = HitTest.onDrawFrame \/ onDrawFrame = DepthOcclusion.onDrawFrame ->
  requestHitTestSource host = None ->
  selectListener s = false ->
  arHitTestSource s = None ->
  sameObjects s (stateAfter (startARSession host ;; run onDrawFrame events) s).
Proof.
  intros Hpage Hhost Hlisten Hsource.
  destruct (tracker_pages_shape onDrawFrame Hpage) as (rendering & Hunfold & Hrender).
  rewrite stateAfter_bind. cbv beta.
  assert (Hstart : stateAfter (startARSession host) s = s).
  { unfold startARSession. rewrite Hhost.
    destruct (isARSupported host); reflexivity. }
  rewrite Hstart. clear Hstart.
  revert s Hlisten Hsource. induction events as [| e rest IH]; intros s Hlisten Hsource.
  - apply sameObjects_refl.
  - cbn [run forEach]. rewrite stateAfter_bind. cbv beta.
    assert (Hstep : sameObjects s (stateAfter (dispatch onDrawFrame e) s)).
    { destruct e as [| frame].
      - unfold dispatch, stateAfter, mbind, prog_bind, get. cbv beta iota zeta.
        rewrite Hlisten. apply sameObjects_refl.
      - cbn [dispatch].
        apply (tracked_frame_without_hit onDrawFrame rendering Hunfold Hrender).
        cbn [observesHit]. rewrite Hsource.
        destruct (getViewerPose frame); reflexivity. }
    eapply sameObjects_trans; [exact Hstep |].
    destruct Hstep as (_ & _ & _ & Hsource1 & Hlisten1).
    apply IH; congruence.
Qed.

Lemma without_hit_test_source_nothing_moves_witness :
  sameObjects afterMain
    (stateAfter (startARSession (MkPlatform true None) ;;
                 run DepthOcclusion.onDrawFrame [Select; Frame frameWithHit; Select])
                afterMain).
Proof.
  apply (without_hit_test_source_nothing_moves DepthOcclusion.onDrawFrame
           (MkPlatform true None) [Select; Frame frameWithHit; Select] afterMain).
  - right; reflexivity.
  - reflexivity.
  - reflexivity.
  - reflexivity.
Defined.

(** Before any hit: the general form, over a page with the tracker's
    shape. *)
Lemma run_before_any_hit onDrawFrame rendering
    (events : list Event) (s : State) (reticle : GLSceneObject) :
  (forall frame, onDrawFrame frame =
     (call RequestAnimationFrame ;; call FrameGetViewerPose ;;
      match getViewerPose frame with
      | Some views => checkForHitResults frame ;; rendering views
      | None => mret tt
      end)) ->
  (forall views, rendersOnly (rendering views)) ->
  heap s !! reticleSceneObj s = Some reticle ->
  hitObservedDuring onDrawFrame events s = false ->
  heap (stateAfter (run onDrawFrame events) s)
  = heap s ++ replicate (if selectListener s then countSelects events else 0%nat)
                        (placedFrom reticle).
Proof.
  intros Hunfold Hrender. revert s.
  induction events as [| e rest IH]; intros s Hret Hquiet.
  - cbn [countSelects replicate]. destruct (selectListener s);
      cbn [replicate]; rewrite app_nil_r; reflexivity.
  - cbn [hitObservedDuring] in Hquiet.
    apply orb_false_iff in Hquiet. destruct Hquiet as [Hnow Hlater].
    cbn [run forEach]. rewrite stateAfter_bind. cbv beta.
    change (forEach rest (dispatch onDrawFrame)) with (run onDrawFrame rest).
    destruct e as [| frame].
    + destruct (selectListener s) eqn:Hlisten.
      * pose proof (dispatch_select_listening onDrawFrame s reticle Hlisten Hret) as Hs1.
        rewrite Hs1 in Hlater |- *.
        rewrite (IH _); [| | exact Hlater].
        -- cbn [setScene setHeap heap selectListener countSelects]. rewrite Hlisten.
           rewrite <- app_assoc. reflexivity.
        -- cbn [setScene setHeap heap reticleSceneObj].
           rewrite lookup_app_l; [exact Hret |].
           eapply lookup_lt_Some; exact Hret.
      * assert (Hs1 : stateAfter (dispatch onDrawFrame Select) s = s).
        { unfold dispatch, stateAfter, mbind, prog_bind, get. cbv beta iota zeta.
          rewrite Hlisten. reflexivity. }
        rewrite Hs1 in Hlater |- *.
        rewrite (IH s Hret Hlater), Hlisten. reflexivity.
    + cbn [dispatch] in Hlater |- *.
      destruct (tracked_frame_without_hit onDrawFrame rendering Hunfold Hrender
                  frame s Hnow) as [(Hheap & _ & Href & _ & Hlisten1) _].
      rewrite (IH _); [| rewrite Hheap, Href; exact Hret | exact Hlater].
      rewrite Hheap, Hlisten1. cbn [countSelects]. reflexivity.
Qed.

(** X17.  On both pages with a reticle, as long as no frame has let the
    tracker see a hit, the reticle keeps the pose it had, and every object
    placed by a select event is a copy of that one pose. *)
Theorem before_any_hit_all_placements_coincide
    (onDrawFrame : XRFrame -> Prog unit) (events : list Event) (s : State)
    (reticle : GLSceneObject) :
  onDrawFrame = HitTest.onDrawFrame \/ onDrawFrame = DepthOcclusion.onDrawFrame ->
  heap s !! reticleSceneObj s = Some reticle ->
  hitObservedDuring onDrawFrame events s = false ->
  let s' := stateAfter (run onDrawFrame events) s in
  heap s' = heap s ++ replicate (if selectListener s then countSelects events else 0%nat)
                                (placedFrom reticle)
  /\ heap s' !! reticleSceneObj s = Some reticle.
Proof.
  intros Hpage Hret Hquiet. cbn zeta.
  destruct (tracker_pages_shape onDrawFrame Hpage) as (rendering & Hunfold & Hrender).
  rewrite (run_before_any_hit onDrawFrame rendering events s reticle
             Hunfold Hrender Hret Hquiet).
  split; [reflexivity |].
  rewrite lookup_app_l; [exact Hret | eapply lookup_lt_Some; exact Hret].
Qed.

Lemma before_any_hit_all_placements_coincide_witness :
  heap (stateAfter (run DepthOcclusion.onDrawFrame
                      [Select; Frame frameUnresolvedHit; Select; Frame frameWithoutPose])
                   started)
  = [theReticle; placedFrom theReticle; placedFrom theReticle].
Proof.
  apply (before_any_hit_all_placements_coincide DepthOcclusion.onDrawFrame
           [Select; Frame frameUnresolvedHit; Select; Frame frameWithoutPose]
           started theReticle).
  - right; reflexivity.
  - reflexivity.
  - reflexivity.
Defined.

(** X18.  On both pages with a reticle, a frame on which the tracker sees
    a hit writes the reticle's pose before the rendering block starts: the
    calls of the frame are the two queries, the two setters, and then the
    rendering block run on the state in which the reticle already sits on
    the hit. *)
Theorem hit_is_applied_before_rendering
    (onDrawFrame : XRFrame -> Prog unit) (rendering : list XRView -> Prog unit)
    (frame : XRFrame) (s : State) (views : list XRView)
    (source : XRHitTestSource) (hit : XRRigidTransform)
    (rest : list (option XRRigidTransform)) :
  (onDrawFrame = HitTest.onDrawFrame /\ rendering = HitTest.doTheRendering)
  \/ (onDrawFrame = DepthOcclusion.onDrawFrame
      /\ rendering = DepthOcclusion.doTheRendering) ->
  getViewerPose frame = Some views ->
  arHitTestSource s = Some source ->
  getHitTestResults frame = Some hit :: rest ->
  callsOf (onDrawFrame frame) s
  = [RequestAnimationFrame; FrameGetViewerPose; FrameGetHitTestResults;
     HitResultGetPose; SetPosition (reticleSceneObj s) (position hit);
     SetRotation (reticleSceneObj s) (orientation hit)]
    ++ callsOf (rendering views) (setHeap (heapWithReticleAt hit s) s)
  /\ Forall (fun c => isPoseUpdate c = false)
            (callsOf (rendering views) (setHeap (heapWithReticleAt hit s) s)).
Proof.
  intros Hpage Hpose Hsrc Hres.
  assert (Hshape : (forall f, onDrawFrame f =
                      (call RequestAnimationFrame ;; call FrameGetViewerPose ;;
                       match getViewerPose f with
                       | Some vs => checkForHitResults f ;; rendering vs
                       | None => mret tt
                       end))
                   /\ (forall vs, rendersOnly (rendering vs))).
  { destruct Hpage as [[-> ->] | [-> ->]]; split.
    - exact hitTest_onDrawFrame_unfold.
    - exact hitTest_rendering_rendersOnly.
    - exact depthOcclusion_onDrawFrame_unfold.
    - exact depthOcclusion_rendering_rendersOnly. }
  destruct Hshape as [Hunfold Hrender].
  destruct (tracked_frame_hit_effect onDrawFrame rendering Hunfold Hrender
              frame s views source hit rest Hpose Hsrc Hres)
    as (_ & _ & _ & _ & _ & Hcalls).
  split; [exact Hcalls |].
  destruct (Hrender views (setHeap (heapWithReticleAt hit s) s)) as [_ Hquiet].
  eapply List.Forall_impl; [| exact Hquiet].
  intros c Hc. destruct c; try reflexivity; discriminate.
Qed.

Lemma hit_is_applied_before_rendering_witness :
  callsOf (HitTest.onDrawFrame frameWithHit) started
  = [RequestAnimationFrame; FrameGetViewerPose; FrameGetHitTestResults;
     HitResultGetPose; SetPosition 0 (Vec3 1 2 3); SetRotation 0 (Quat 0 0 0 1)]
    ++ callsOf (HitTest.doTheRendering [camera])
               (setHeap (heapWithReticleAt floorHit started) started).
Proof.
  apply (hit_is_applied_before_rendering HitTest.onDrawFrame HitTest.doTheRendering
           frameWithHit started [camera] HitTestSource floorHit []).
  - left; split; reflexivity.
  - reflexivity.
  - reflexivity.
  - reflexivity.
Defined.

Lemma prog_eta (m : Prog unit) (s : State) : m s = (tt, stateAfter m s, callsOf m s).
Proof. unfold stateAfter, callsOf. destruct (m s) as [[[] s1] t1]. reflexivity. Qed.

Lemma checkForHitResults_first_only (frame1 frame2 : XRFrame) (s : State) :
  head (getHitTestResults frame1) = head (getHitTestResults frame2) ->
  checkForHitResults frame1 s = checkForHitResults frame2 s.
Proof.
  intros Hhead. unfold checkForHitResults.
  rewrite !run_bind. cbn [get stateAfter callsOf fst snd].
  destruct (arHitTestSource s) as [source |]; [| reflexivity].
  destruct (getHitTestResults frame1) as [| first1 rest1],
           (getHitTestResults frame2) as [| first2 rest2];
    cbn [head] in Hhead; try discriminate; [reflexivity |].
  injection Hhead as ->. reflexivity.
Qed.

(** X19.  Only the first hit-test result counts: on both pages with a
    reticle, two frames with the same views and the same first result (or
    both without results) leave the same state and make the same calls,
    whatever further results they carry. *)
Theorem only_first_hit_result_counts
    (onDrawFrame : XRFrame -> Prog unit) (frame1 frame2 : XRFrame) (s : State) :
  onDrawFrame = HitTest.onDrawFrame \/ onDrawFrame = DepthOcclusion.onDrawFrame ->
  getViewerPose frame1 = getViewerPose frame2 ->
  head (getHitTestResults frame1) = head (getHitTestResults frame2) ->
  onDrawFrame frame1 s = onDrawFrame frame2 s.
Proof.
  intros Hpage Hpose Hhead.
  destruct (tracker_pages_shape onDrawFrame Hpage) as (rendering & Hunfold & _).
  rewrite !Hunfold, Hpose.
  destruct (getViewerPose frame2) as [views |]; [| reflexivity].
  pose proof (checkForHitResults_first_only frame1 frame2 s Hhead) as Hcheck.
  assert (Hstate : stateAfter (checkForHitResults frame1) s
                   = stateAfter (checkForHitResults frame2) s)
    by (unfold stateAfter; rewrite Hcheck; reflexivity).
  assert (Hcalls : callsOf (checkForHitResults frame1) s
                   = callsOf (checkForHitResults frame2) s)
    by (unfold callsOf; rewrite Hcheck; reflexivity).
  rewrite (prog_eta (call RequestAnimationFrame ;; call FrameGetViewerPose ;;
                     checkForHitResults frame1 ;; rendering views) s).
  rewrite (prog_eta (call RequestAnimationFrame ;; call FrameGetViewerPose ;;
                     checkForHitResults frame2 ;; rendering views) s).
  rewrite !stateAfter_bind, !callsOf_bind. cbv beta.
  rewrite !stateAfter_call, Hstate, Hcalls.
  reflexivity.
Qed.

Lemma only_first_hit_result_counts_witness :
  DepthOcclusion.onDrawFrame (MkFrame (Some [camera]) [Some floorHit; None]) started
  = DepthOcclusion.onDrawFrame frameWithHit started.
Proof.
  apply (only_first_hit_result_counts DepthOcclusion.onDrawFrame
           (MkFrame (Some [camera]) [Some floorHit; None]) frameWithHit started).
  - right; reflexivity.
  - reflexivity.
  - reflexivity.
Defined.

Lemma alter_twice {A} (f g : A -> A) (i : nat) (l : list A) :
  alter f i (alter g i l) = alter (fun x => f (g x)) i l.
Proof.
  revert i. induction l as [| y l IH]; intros [| i]; try reflexivity.
  change (y :: alter f i (alter g i l) = y :: alter (fun x => f (g x)) i l).
  rewrite IH. reflexivity.
Qed.

(** The setters overwrite: an earlier pose leaves no trace. *)
Lemma heapWithReticleAt_overwrites (hit1 hit2 : XRRigidTransform) (s : State) :
  heapWithReticleAt hit2 (setHeap (heapWithReticleAt hit1 s) s)
  = heapWithReticleAt hit2 s.
Proof.
  unfold heapWithReticleAt. cbn [setHeap heap reticleSceneObj].
  rewrite !alter_twice. apply list_alter_ext; [| reflexivity].
  intros o _. reflexivity.
Qed.

(** X20.  The last hit wins: on both pages with a reticle, after two
    frames that each let the tracker see a hit, the objects are as if only
    the second frame had been delivered. *)
Theorem last_hit_wins
    (onDrawFrame : XRFrame -> Prog unit) (frame1 frame2 : XRFrame) (s : State) :
  onDrawFrame = HitTest.onDrawFrame \/ onDrawFrame = DepthOcclusion.onDrawFrame ->
  observesHit s (Frame frame1) = true ->
  observesHit s (Frame frame2) = true ->
  heap (stateAfter (run onDrawFrame [Frame frame1; Frame frame2]) s)
  = heap (stateAfter (run onDrawFrame [Frame frame2]) s).
Proof.
  intros Hpage Hobs1 Hobs2.
  destruct (tracker_pages_shape onDrawFrame Hpage) as (rendering & Hunfold & Hrender).
  destruct (observesHit_true s frame1 Hobs1)
    as (views1 & source1 & hit1 & rest1 & Hpose1 & Hsrc1 & Hres1).
  destruct (observesHit_true s frame2 Hobs2)
    as (views2 & source2 & hit2 & rest2 & Hpose2 & Hsrc2 & Hres2).
  cbn [run forEach dispatch]. rewrite !stateAfter_bind. cbv beta.
  change (stateAfter (mret tt) ?x) with x.
  destruct (tracked_frame_hit_effect onDrawFrame rendering Hunfold Hrender
              frame1 s views1 source1 hit1 rest1 Hpose1 Hsrc1 Hres1)
    as (Hheap1 & _ & Href1 & Hsource1 & _).
  set (s1 := stateAfter (onDrawFrame frame1) s) in *.
  destruct (tracked_frame_hit_effect onDrawFrame rendering Hunfold Hrender
              frame2 s1 views2 source2 hit2 rest2 Hpose2)
    as (Hheap12 & _); [congruence | exact Hres2 |].
  destruct (tracked_frame_hit_effect onDrawFrame rendering Hunfold Hrender
              frame2 s views2 source2 hit2 rest2 Hpose2 Hsrc2 Hres2)
    as (Hheap2 & _).
  rewrite Hheap12, Hheap2.
  rewrite <- (heapWithReticleAt_overwrites hit1 hit2 s).
  unfold heapWithReticleAt. cbn [setHeap heap reticleSceneObj].
  rewrite Href1, Hheap1. reflexivity.
Qed.

Lemma last_hit_wins_witness :
  heap (stateAfter (run DepthOcclusion.onDrawFrame
                      [Frame (MkFrame (Some [camera])
                                [Some (MkTransform (Vec3 9 9 9) (Quat 1 0 0 0))]);
                       Frame frameWithHit]) started)
  = heap (stateAfter (run DepthOcclusion.onDrawFrame [Frame frameWithHit]) started).
Proof.
  apply (last_hit_wins DepthOcclusion.onDrawFrame
           (MkFrame (Some [camera]) [Some (MkTransform (Vec3 9 9 9) (Quat 1 0 0 0))])
           frameWithHit started).
  - right; reflexivity.
  - reflexivity.
  - reflexivity.
Defined.

(** X21.  On both pages with a reticle, a select event that follows a
    frame on which the tracker saw a hit places the new object on that
    hit: at the hit's position, with the hit's orientation turned by
    (-90,0,0), at scale 0.5, under the next free reference. *)
Theorem select_after_hit_places_on_hit
    (onDrawFrame : XRFrame -> Prog unit) (frame : XRFrame) (s : State)
    (views : list XRView) (source : XRHitTestSource) (hit : XRRigidTransform)
    (rest : list (option XRRigidTransform)) :
  onDrawFrame = HitTest.onDrawFrame \/ onDrawFrame = DepthOcclusion.onDrawFrame ->
  selectListener s = true ->
  is_Some (heap s !! reticleSceneObj s) ->
  getViewerPose frame = Some views ->
  arHitTestSource s = Some source ->
  getHitTestResults frame = Some hit :: rest ->
  let s' := stateAfter (run onDrawFrame [Frame frame; Select]) s in
  heap s' !! length (heap s) = Some (placedAt hit)
  /\ scene s' = scene s ++ [length (heap s)].
Proof.
  intros Hpage Hlisten [reticle Hret] Hpose Hsrc Hres. cbn zeta.
  destruct (tracker_pages_shape onDrawFrame Hpage) as (rendering & Hunfold & Hrender).
  cbn [run forEach]. rewrite !stateAfter_bind. cbv beta.
  change (stateAfter (mret tt) ?x) with x.
  change (dispatch onDrawFrame (Frame frame)) with (onDrawFrame frame).
  destruct (tracked_frame_hit_effect onDrawFrame rendering Hunfold Hrender
              frame s views source hit rest Hpose Hsrc Hres)
    as (Hheap & Hscene & Href & _ & Hlisten1 & _).
  set (s1 := stateAfter (onDrawFrame frame) s) in *.
  assert (Hret1 : heap s1 !! reticleSceneObj s1
                  = Some (setRotation (orientation hit)
                            (setPosition (position hit) reticle))).
  { rewrite Hheap, Href. unfold heapWithReticleAt.
    rewrite !list_lookup_alter_eq, Hret. reflexivity. }
  rewrite (dispatch_select_listening onDrawFrame s1 _ (eq_trans Hlisten1 Hlisten) Hret1).
  cbn [setScene setHeap heap scene].
  assert (Hlen : length (heap s1) = length (heap s))
    by (rewrite Hheap; unfold heapWithReticleAt; rewrite !length_alter; reflexivity).
  rewrite Hscene, Hlen. split; [| reflexivity].
  rewrite lookup_app_r by lia. rewrite Hlen, Nat.sub_diag. reflexivity.
Qed.

Lemma select_after_hit_places_on_hit_witness :
  heap (stateAfter (run DepthOcclusion.onDrawFrame [Frame frameWithHit; Select]) started)
    !! 1%nat
  = Some (placedAt floorHit).
Proof.
  apply (select_after_hit_places_on_hit DepthOcclusion.onDrawFrame frameWithHit
           started [camera] HitTestSource floorHit []).
  - right; reflexivity.
  - reflexivity.
  - eexists; reflexivity.
  - reflexivity.
  - reflexivity.
  - reflexivity.
Defined.

Lemma intro_rendering_rendersOnly (views : list XRView) :
  rendersOnly (Intro.doTheRendering views).
Proof. unfold Intro.doTheRendering. renders. Qed.

(** X22.  The introductory page and the depth-sensing page only render:
    their [startARSession] registers no select handler, and after it no
    sequence of events changes, creates or registers a scene object;
    every call they make leaves the objects alone. *)
Theorem pages_without_tracker_only_render
    (onDrawFrame : XRFrame -> Prog unit) (isARSupported : bool)
    (events : list Event) (s : State) :
  onDrawFrame = Intro.onDrawFrame \/ onDrawFrame = DepthSensing.onDrawFrame ->
  selectListener s = false ->
  sameObjects s
    (stateAfter (Intro.startARSession isARSupported ;; run onDrawFrame events) s)
  /\ Forall (fun c => isObjectCall c = false)
            (callsOf (Intro.startARSession isARSupported ;; run onDrawFrame events) s).
Proof.
  intros Hpage Hlisten.
  assert (Hframe : forall frame, rendersOnly (onDrawFrame frame)).
  { intros frame. destruct Hpage as [-> | ->].
    - unfold Intro.onDrawFrame.
      renders; try apply intro_rendering_rendersOnly.
    - unfold DepthSensing.onDrawFrame.
      renders; try apply depthSensing_rendering_rendersOnly. }
  assert (Hrun : forall evs s0, selectListener s0 = false ->
            sameObjects s0 (stateAfter (run onDrawFrame evs) s0)
            /\ Forall (fun c => isObjectCall c = false)
                      (callsOf (run onDrawFrame evs) s0)).
  { induction evs as [| e rest IH]; intros s0 Hoff.
    - split; [apply sameObjects_refl | constructor].
    - cbn [run forEach]. rewrite stateAfter_bind, callsOf_bind. cbv beta.
      assert (Hstep : sameObjects s0 (stateAfter (dispatch onDrawFrame e) s0)
                /\ Forall (fun c => isObjectCall c = false)
                          (callsOf (dispatch onDrawFrame e) s0)).
      { destruct e as [| frame].
        - unfold dispatch. rewrite stateAfter_bind, callsOf_bind. cbn [get fst].
          change (stateAfter get s0) with s0. rewrite Hoff.
          split; [apply sameObjects_refl | constructor].
        - apply Hframe. }
      destruct Hstep as [Hsame Hcalls].
      destruct (IH (stateAfter (dispatch onDrawFrame e) s0)) as [IHsame IHcalls].
      { destruct Hsame as (_ & _ & _ & _ & Hl). congruence. }
      split; [eapply sameObjects_trans; eassumption |].
      apply Forall_app; split; assumption. }
  rewrite stateAfter_bind, callsOf_bind. cbv beta.
  assert (Hstart : stateAfter (Intro.startARSession isARSupported) s = s
            /\ Forall (fun c => isObjectCall c = false)
                      (callsOf (Intro.startARSession isARSupported) s)).
  { unfold Intro.startARSession. destruct isARSupported; cbn [negb].
    - split; [reflexivity | repeat constructor].
    - split; [reflexivity | constructor]. }
  destruct Hstart as [-> Hstart].
  destruct (Hrun events s Hlisten) as [Hsame Hcalls].
  split; [exact Hsame | apply Forall_app; split; assumption].
Qed.

Lemma pages_without_tracker_only_render_witness :
  sameObjects Intro.afterMain
    (stateAfter (Intro.startARSession true ;;
                 run Intro.onDrawFrame
                     [Frame frameWithHit; Select; Frame frameWithoutPose])
                Intro.afterMain).
Proof.
  apply (pages_without_tracker_only_render Intro.onDrawFrame true
           [Frame frameWithHit; Select; Frame frameWithoutPose] Intro.afterMain).
  - left; reflexivity.
  - reflexivity.
Defined.

End SessionExtras.

Section SupportExtras.
Import Support.

(** X23.  [isARSupported] answers true exactly when the browser has WebXR
    and reports immersive AR as supported; it writes one error to the
    console when it answers false and none when it answers true. *)
Theorem isARSupported_reports_every_refusal (navigator : Navigator) :
  (fst (isARSupported navigator) = true <-> xr navigator = Some true)
  /\ (fst (isARSupported navigator) = true -> snd (isARSupported navigator) = [])
  /\ (fst (isARSupported navigator) = false ->
      exists message, snd (isARSupported navigator) = [message]
        /\ (message = WebXRNotSupported <-> xr navigator = None)).
Proof.
  destruct navigator as [[[|] |]]; cbn.
  - repeat split; auto; discriminate.
  - repeat split; try discriminate.
    intros _. exists WebARNotSupported. repeat split; discriminate.
  - repeat split; try discriminate.
    intros _. exists WebXRNotSupported. repeat split; auto.
Qed.

End SupportExtras.

Section CommitAcrossFrames.
Import GLSL WebXR Framework Runtime Placement Observations MoreObservations Samples.

Lemma countSelects_frames (frames : list XRFrame) :
  countSelects (map Frame frames) = 0%nat.
Proof. induction frames as [| frame rest IH]; [reflexivity | exact IH]. Qed.

Lemma stateAfter_run_cons (onDrawFrame : XRFrame -> Prog unit)
    (e : Event) (events : list Event) (s : State) :
  stateAfter (run onDrawFrame (e :: events)) s
  = stateAfter (run onDrawFrame events) (stateAfter (dispatch onDrawFrame e) s).
Proof. cbn [run forEach]. rewrite stateAfter_bind. reflexivity. Qed.

Lemma stateAfter_run_app (onDrawFrame : XRFrame -> Prog unit)
    (events1 events2 : list Event) (s : State) :
  stateAfter (run onDrawFrame (events1 ++ events2)) s
  = stateAfter (run onDrawFrame events2) (stateAfter (run onDrawFrame events1) s).
Proof.
  revert s. induction events1 as [| e rest IH]; intros s; [reflexivity |].
  cbn [app]. rewrite !stateAfter_run_cons. apply IH.
Qed.

(** C5.  On both pages with a reticle, two select events with any frames
    between them after which the reticle has the pose it had at the first
    select (frames without hit, frames whose hit rewrites the same pose, or
    any others that end there) add two scene objects under two different
    fresh references, both at the reticle's position and with the
    reticle's orientation turned by (-90,0,0); the reticle's own entry and
    every earlier object are as before. *)
Theorem two_selects_place_two_copies
    (onDrawFrame : XRFrame -> Prog unit) (s : State)
    (reticle : GLSceneObject) (frames : list XRFrame) :
  onDrawFrame = HitTest.onDrawFrame \/ onDrawFrame = DepthOcclusion.onDrawFrame ->
  selectListener s = true ->
  heap s !! reticleSceneObj s = Some reticle ->
  heap (stateAfter (run onDrawFrame (Select :: map Frame frames)) s)
    !! reticleSceneObj s = Some reticle ->
  let s' := stateAfter (run onDrawFrame (Select :: map Frame frames ++ [Select])) s in
  let first := length (heap s) in
  let second := S (length (heap s)) in
  scene s' = scene s ++ [first; second]
  /\ first <> second
  /\ first <> reticleSceneObj s /\ second <> reticleSceneObj s
  /\ heap s' !! first = Some (placedFrom reticle)
  /\ heap s' !! second = Some (placedFrom reticle)
  /\ reticleSceneObj s' = reticleSceneObj s
  /\ heap s' !! reticleSceneObj s = Some reticle
  /\ (forall ref, (ref < length (heap s))%nat -> heap s' !! ref = heap s !! ref).
Proof.
  intros Hpage Hlisten Hret Hsame. cbn zeta.
  destruct (tracker_pages_shape onDrawFrame Hpage) as (rendering & Hunfold & Hrender).
  pose proof (lookup_lt_Some _ _ _ Hret) as Hlt.
  change (Select :: map Frame frames ++ [Select])
    with ((Select :: map Frame frames) ++ [Select]).
  rewrite stateAfter_run_app.
  rewrite (stateAfter_run_cons onDrawFrame Select (map Frame frames) s) in Hsame |- *.
  pose proof (dispatch_select_listening onDrawFrame s reticle Hlisten Hret) as Hs1.
  set (s1 := stateAfter (dispatch onDrawFrame Select) s) in *.
  assert (Hheap1 : heap s1 = heap s ++ [placedFrom reticle]) by (rewrite Hs1; reflexivity).
  assert (Hscene1 : scene s1 = scene s ++ [length (heap s)]) by (rewrite Hs1; reflexivity).
  assert (Href1 : reticleSceneObj s1 = reticleSceneObj s) by (rewrite Hs1; reflexivity).
  assert (Hlisten1 : selectListener s1 = true) by (rewrite Hs1; exact Hlisten).
  assert (Hret1 : is_Some (heap s1 !! reticleSceneObj s1)).
  { rewrite Href1, Hheap1, lookup_app_l by exact Hlt. eexists; exact Hret. }
  destruct (run_grows onDrawFrame rendering Hunfold Hrender (map Frame frames) s1)
    as (Href2 & _ & Hlisten2 & _ & _ & Hkeep).
  destruct (run_counts_selects onDrawFrame rendering (map Frame frames) s1
              Hunfold Hrender Hlisten1 Hret1) as [Hlen2 Hscene2].
  rewrite countSelects_frames in Hlen2, Hscene2.
  cbn [seq] in Hscene2. rewrite Nat.add_0_r in Hlen2. rewrite app_nil_r in Hscene2.
  set (s2 := stateAfter (run onDrawFrame (map Frame frames)) s1) in *.
  assert (Hlen2' : length (heap s2) = S (length (heap s))).
  { rewrite Hlen2, Hheap1, length_app. cbn [length]. lia. }
  assert (Hret2 : heap s2 !! reticleSceneObj s2 = Some reticle).
  { rewrite Href2, Href1. exact Hsame. }
  assert (Hfirst2 : heap s2 !! length (heap s) = Some (placedFrom reticle)).
  { apply Hkeep; [rewrite Href1; lia |].
    rewrite Hheap1, lookup_app_r by lia. rewrite Nat.sub_diag. reflexivity. }
  rewrite (stateAfter_run_cons onDrawFrame Select [] s2).
  change (stateAfter (run onDrawFrame []) ?x) with x.
  rewrite (dispatch_select_listening onDrawFrame s2 reticle
             (eq_trans Hlisten2 Hlisten1) Hret2).
  cbn [setScene setHeap heap scene reticleSceneObj].
  rewrite Hscene2, Hscene1, Hlen2', Href2, Href1, <- app_assoc.
  repeat match goal with |- _ /\ _ => split end.
  - reflexivity.
  - lia.
  - lia.
  - lia.
  - rewrite lookup_app_l by lia. exact Hfirst2.
  - rewrite lookup_app_r by lia. rewrite Hlen2', Nat.sub_diag. reflexivity.
  - reflexivity.
  - rewrite lookup_app_l by lia. exact Hsame.
  - intros ref Href'. rewrite lookup_app_l by lia.
    destruct (decide (ref = reticleSceneObj s)) as [-> | Hne].
    + rewrite Hret. exact Hsame.
    + destruct (lookup_lt_is_Some_2 (heap s) ref Href') as [o Ho].
      rewrite Ho. apply Hkeep; [rewrite Href1; exact Hne |].
      rewrite Hheap1, lookup_app_l by exact Href'. exact Ho.
Qed.

(** Steady tracking between the two selects: the frame in between sees a
    hit, which rewrites the pose the reticle already has. *)
Lemma two_selects_place_two_copies_witness :
  let tracking := stateAfter (DepthOcclusion.onDrawFrame frameWithHit) started in
  let s' := stateAfter (run DepthOcclusion.onDrawFrame
              (Select :: map Frame [frameWithHit; frameWithoutHit] ++ [Select]))
              tracking in
  observesHit tracking (Frame frameWithHit) = true
  /\ scene s' = [0; 1; 2]%nat
  /\ heap s' !! 1%nat = Some (placedFrom trackedReticle)
  /\ heap s' !! 2%nat = Some (placedFrom trackedReticle)
  /\ heap s' !! 0%nat = Some trackedReticle.
Proof.
  destruct (two_selects_place_two_copies DepthOcclusion.onDrawFrame
              (stateAfter (DepthOcclusion.onDrawFrame frameWithHit) started)
              trackedReticle [frameWithHit; frameWithoutHit])
    as (Hscene & _ & _ & _ & Hfirst & Hsecond & _ & Hreticle & _).
  - right; reflexivity.
  - reflexivity.
  - reflexivity.
  - reflexivity.
  - cbn zeta. repeat split; assumption.
Defined.

End CommitAcrossFrames.

Section UploadFacts.
Import GLSL DepthShader WebXR Framework Runtime Placement Observations MoreObservations Samples.

Lemma unpackRows_nil (rows stride rowLen : nat) :
  unpackRows rows stride rowLen [] = [].
Proof.
  induction rows as [| rows IH]; [reflexivity |].
  cbn [unpackRows]. rewrite take_nil, drop_nil, IH. reflexivity.
Qed.

(** With rows that follow each other without padding, unpacking reads the
    buffer from its start. *)
Lemma unpackRows_tight (rows rowLen : nat) (bytes : list Z) :
  unpackRows rows rowLen rowLen bytes = take (rows * rowLen) bytes.
Proof.
  revert bytes. induction rows as [| rows IH]; intros bytes; [reflexivity |].
  cbn [unpackRows]. rewrite IH, take_take_drop. reflexivity.
Qed.

(** An accepted upload of a tightly packed snapshot stores the snapshot's
    bytes as they are. *)
Lemma unpackImage_tight (w h : Z) (bytes : list Z) :
  texImageAccepted w h bytes = true ->
  Z.of_nat (length bytes) = (2 * w * h)%Z ->
  unpackImage w h bytes = bytes.
Proof.
  unfold texImageAccepted, requiredBytes, unpackImage, rowStride, rowBytes.
  intros Hacc Htight.
  apply andb_true_iff in Hacc. destruct Hacc as [Hacc Hreq].
  apply andb_true_iff in Hacc. destruct Hacc as [Hw Hh].
  apply Z.leb_le in Hw, Hh, Hreq.
  destruct ((w =? 0) || (h =? 0))%Z eqn:Hempty.
  - assert (Hnil : bytes = []).
    { apply orb_true_iff in Hempty. apply length_zero_iff_nil.
      destruct Hempty as [H0 | H0]; apply Z.eqb_eq in H0; subst; lia. }
    subst bytes. apply unpackRows_nil.
  - apply orb_false_iff in Hempty. destruct Hempty as [Hw0 Hh0].
    apply Z.eqb_neq in Hw0, Hh0.
    assert (Hstride : (2 * w <= 4 * ((2 * w + 3) / 4))%Z).
    { pose proof (Z.div_mod (2 * w + 3) 4 ltac:(lia)) as Hdm.
      pose proof (Z.mod_pos_bound (2 * w + 3) 4 ltac:(lia)) as Hmod. lia. }
    destruct (decide (h = 1%Z)) as [-> | Hh1].
    + change (Z.to_nat 1) with 1%nat. cbn [unpackRows].
      rewrite app_nil_r. apply take_ge. lia.
    + assert (Heq : (4 * ((2 * w + 3) / 4) = 2 * w)%Z) by nia.
      rewrite Heq, unpackRows_tight. apply take_ge. nia.
Qed.

(** Decoding is linear in the texel, so a weighted mean of texels that all
    decode to [d] decodes to [d] times the sum of the weights. *)
Lemma blend_meters (scale d : Q) (weights : list Q) (texels : list vec4) :
  length weights = length texels ->
  Forall (fun texel => texelMeters scale texel == d) texels ->
  texelMeters scale (blend weights texels) == sumQ weights * d.
Proof.
  revert texels. induction weights as [| w ws IH]; intros [| t ts] Hlen Hall;
    try discriminate.
  - unfold texelMeters, dot, ra. cbn [blend sumQ r a fst snd]. ring.
  - inversion Hall as [| ? ? Ht Hts]; subst.
    specialize (IH ts ltac:(cbn in Hlen; lia) Hts).
    unfold texelMeters, dot, ra in *. cbn [blend sumQ r a fst snd] in *.
    assert (Hsplit :
      (w * r t + r (blend ws ts)) * 255 + (w * a t + a (blend ws ts)) * (256 * 255)
      == w * (r t * 255 + a t * (256 * 255))
         + (r (blend ws ts) * 255 + a (blend ws ts) * (256 * 255))) by ring.
    rewrite Hsplit, Qmult_plus_distr_l, IH, <- Qmult_assoc, Ht. ring.
Qed.

Lemma depthGetMeters_of_sample (scale : Q) (tex : sampler2D) (uv : vec2) (v : vec4) :
  vec4_eq (texture tex uv) v ->
  depthGetMeters scale tex uv == texelMeters scale v.
Proof.
  intros (Hr & _ & _ & Ha). unfold depthGetMeters, texelMeters, dot, ra; cbn [fst snd].
  rewrite Hr, Ha. reflexivity.
Qed.

(** X24.  On the depth-sensing page, for a frame with one view and a
    tightly packed depth snapshot that [texImage2D] accepts (even width, or
    a single row) and every pixel of which decodes to 2 meters, with a
    sampler that filters the uploaded image, the frame issues one draw and
    every fragment of it gets the colour (0.25, 0.25, 0.25, 1), 0.25 being
    2/8 with 8 the shader's [kMaxDepth]. *)
Theorem uniform_depth_renders_quarter_gray
    (sampleImage : Z -> Z -> list Z -> sampler2D)
    (frame : XRFrame) (view : XRView) (depthInfo : XRDepthInformation)
    (s : State) (fragCoord : vec2) :
  getViewerPose frame = Some [view] ->
  depthInformation view = Some depthInfo ->
  Z.of_nat (length (data depthInfo)) = (2 * width depthInfo * height depthInfo)%Z ->
  texImageAccepted (width depthInfo) (height depthInfo) (data depthInfo) = true ->
  filters (sampleImage (width depthInfo) (height depthInfo) (data depthInfo))
          (texelsOf (data depthInfo)) ->
  Forall (fun texel => texelMeters (rawValueToMeters depthInfo) texel == 2)
         (texelsOf (data depthInfo)) ->
  exists color,
    DepthSensing.fragmentColors sampleImage
      (callsOf (DepthSensing.onDrawFrame frame) s) fragCoord = [color]
    /\ vec4_eq color (Vec4 (2 / kMaxDepth) (2 / kMaxDepth) (2 / kMaxDepth) 1)
    /\ 2 / kMaxDepth == 1 # 4.
Proof.
  intros Hpose Hinfo Htight Hacc Hfilter Hpixels.
  unfold DepthSensing.onDrawFrame. rewrite Hpose.
  unfold DepthSensing.doTheRendering. cbn [forEach]. rewrite Hinfo.
  eexists. split; [reflexivity |]. split; [| reflexivity].
  unfold main.
  cbn [DepthSensing.uniformsOfDraw applyGL glProgram setGLProgram
       depthTextureImage uDepthUVTransform uDepthScale uResolution
       DepthShader.depthTexture DepthShader.depthUVTransform
       DepthShader.depthScale DepthShader.resolution].
  rewrite Hacc, (unpackImage_tight _ _ _ Hacc Htight).
  match goal with
  | |- vec4_eq (Vec4 (mappedValue ?d) _ _ _) _ =>
      assert (Hd : d == 2);
      [| assert (Hmapped : mappedValue d == 2 / kMaxDepth)]
  end.
  { match goal with
    | |- depthGetMeters _ _ ?uv == 2 =>
        destruct (Hfilter uv) as (weights & Hlen & Hsum & Hsample)
    end.
    rewrite (depthGetMeters_of_sample _ _ _ _ Hsample).
    rewrite (blend_meters _ 2 weights _ Hlen Hpixels), Hsum. reflexivity. }
  { rewrite mappedValue_inside by (rewrite Hd; discriminate).
    rewrite Hd. reflexivity. }
  repeat split; cbn [r g b a]; first [exact Hmapped | reflexivity].
Qed.

Lemma uniform_depth_renders_quarter_gray_witness :
  exists color,
    DepthSensing.fragmentColors sampleFirstTexel
      (callsOf (DepthSensing.onDrawFrame (MkFrame (Some [cameraSquare]) []))
               DepthSensing.afterMain)
      (3 # 2, 5 # 2) = [color]
    /\ vec4_eq color (Vec4 (2 / kMaxDepth) (2 / kMaxDepth) (2 / kMaxDepth) 1)
    /\ 2 / kMaxDepth == 1 # 4.
Proof.
  apply (uniform_depth_renders_quarter_gray sampleFirstTexel
           (MkFrame (Some [cameraSquare]) []) cameraSquare twoMetersSquare
           DepthSensing.afterMain (3 # 2, 5 # 2)).
  - reflexivity.
  - reflexivity.
  - reflexivity.
  - reflexivity.
  - intros uv. exists [1; 0; 0; 0]. split; [reflexivity |]. split; [reflexivity |].
    repeat split; reflexivity.
  - repeat constructor.
Defined.

End UploadFacts.
